(** * Gaussian Cube codec of Avogadro (QuantumIO::GaussianCube)

    A shallow embedding of [GaussianCube::read] and [GaussianCube::write]
    together with the parts of the C++ stream library they drive, and the
    properties of the codec proved over it.

    Conventions.
    - C++ [int], [short], [unsigned int], [size_t] values are integers in [Z];
      every conversion between them that can change the value is written out.
    - [double] and [float] are the carrier types of the class [Numerics]; the
      conversions between text and floating values are the two locale facets
      the stream operators delegate to ([num_get], [num_put]) and are methods
      of the class, so every theorem holds for any floating-point arithmetic.
    - [Core::trimmed], [Core::split], [Core::lexicalCast] and the two unit
      constants live in headers of Avogadro's core library; they are the
      methods of the class [CoreUtilities].
    - Undefined behaviour (indexing a vector out of range, reading a local
      that was never written, signed overflow), a C++ exception and a loop
      that never ends are outcomes of their own. *)

From Stdlib Require Import ZArith List String Ascii Bool Lia QArith Qabs.
From Stdlib Require Import DecimalString DecimalN.
Import ListNotations.

Local Open Scope string_scope.
Local Open Scope Z_scope.

(* ------------------------------------------------------------------ *)
(** ** Outcomes of a call *)

Inductive exn : Type :=
| length_error.   (* thrown by std::vector::resize beyond max_size() *)

Inductive outcome (S A : Type) : Type :=
| Returned (a : A) (s : S)   (* normal return with result [a] in state [s] *)
| Thrown (e : exn) (s : S)   (* an exception leaves the call in state [s] *)
| Undefined                  (* undefined behaviour *)
| Diverges.                  (* the call never returns *)

Arguments Returned {S A} a s.
Arguments Thrown {S A} e s.
Arguments Undefined {S A}.
Arguments Diverges {S A}.

Definition bind {S A B} (m : outcome S A) (k : A -> S -> outcome S B)
  : outcome S B :=
  match m with
  | Returned a s => k a s
  | Thrown e s => Thrown e s
  | Undefined => Undefined
  | Diverges => Diverges
  end.

(** The state reached by a call that returned or threw. *)
Definition final_state {S A} (m : outcome S A) : option S :=
  match m with
  | Returned _ s => Some s
  | Thrown _ s => Some s
  | Undefined => None
  | Diverges => None
  end.

(** Whether a call returned, and its result and state with defaults for
    the calls that did not. *)
Definition returns {S A} (m : outcome S A) : bool :=
  match m with Returned _ _ => true | _ => false end.

Definition result_or {S A} (d : A) (m : outcome S A) : A :=
  match m with Returned a _ => a | _ => d end.

Definition throws {S A} (m : outcome S A) : bool :=
  match m with Thrown _ _ => true | _ => false end.

Definition state_or {S A} (d : S) (m : outcome S A) : S :=
  match m with
  | Returned _ s => s
  | Thrown _ s => s
  | _ => d
  end.

(* ------------------------------------------------------------------ *)
(** ** Fixed-size vectors (Eigen's Vector3, Vector3i) *)

Record Vec3 (A : Type) : Type := mkVec3 { v0 : A; v1 : A; v2 : A }.
Arguments mkVec3 {A} _ _ _.
Arguments v0 {A} _.
Arguments v1 {A} _.
Arguments v2 {A} _.

Definition vmap {A B} (f : A -> B) (v : Vec3 A) : Vec3 B :=
  mkVec3 (f (v0 v)) (f (v1 v)) (f (v2 v)).

(** A vector whose three components have all been written. *)
Definition vinit {A} (v : Vec3 (option A)) : option (Vec3 A) :=
  match v0 v, v1 v, v2 v with
  | Some a, Some b, Some c => Some (mkVec3 a b c)
  | _, _, _ => None
  end.

(* ------------------------------------------------------------------ *)
(** ** Characters and strings *)

Definition newline : ascii := "010"%char.
Definition space : ascii := " "%char.

(** [std::isspace] in the classic locale. *)
Definition isspace (c : ascii) : bool :=
  let n := nat_of_ascii c in
  (Nat.eqb n 32 || (Nat.leb 9 n && Nat.leb n 13))%bool.

Definition digit_of (c : ascii) : option Z :=
  let n := nat_of_ascii c in
  if (Nat.leb 48 n && Nat.leb n 57)%bool then Some (Z.of_nat (n - 48)) else None.

Definition is_digit (c : ascii) : bool :=
  match digit_of c with Some _ => true | None => false end.

Fixpoint skipws (s : string) : string :=
  match s with
  | String c s' => if isspace c then skipws s' else s
  | EmptyString => s
  end.

Fixpoint repeat_char (c : ascii) (n : nat) : string :=
  match n with
  | O => EmptyString
  | S n' => String c (repeat_char c n')
  end.

Fixpoint has_char (c : ascii) (s : string) : bool :=
  match s with
  | String d s' => (Ascii.eqb c d || has_char c s')%bool
  | EmptyString => false
  end.

(** The characters up to the first newline, the characters after it, and
    whether a newline was met. *)
Fixpoint cut_line (s : string) : string * string * bool :=
  match s with
  | EmptyString => (EmptyString, EmptyString, false)
  | String c s' =>
      if Ascii.eqb c newline then (EmptyString, s', true)
      else let '(l, r, f) := cut_line s' in (String c l, r, f)
  end.

(** The lines of a text: its pieces between newlines. *)
Fixpoint lines_of (fuel : nat) (s : string) : list string :=
  match fuel with
  | O => []
  | S fuel' =>
      let '(l, r, f) := cut_line s in
      if f then l :: lines_of fuel' r else [l]
  end.

Definition lines (s : string) : list string := lines_of (S (String.length s)) s.

(* ------------------------------------------------------------------ *)
(** ** Machine integers *)

Definition INT_MAX : Z := 2147483647.
Definition INT_MIN : Z := -2147483648.
Definition UINT_MAX : Z := 4294967295.

Definition in_int (z : Z) : bool := (INT_MIN <=? z) && (z <=? INT_MAX).

(** Conversion to [unsigned int] and to [unsigned char]. *)
Definition to_uint (z : Z) : Z := z mod 4294967296.
Definition to_uchar (z : Z) : Z := z mod 256.

(* ------------------------------------------------------------------ *)
(** ** std::istream *)

Record istream : Type := mkIstream {
  buf : string;      (* the characters not yet extracted *)
  eofbit : bool;
  failbit : bool
}.

Definition good (ins : istream) : bool := negb (eofbit ins || failbit ins).

Definition setfail (ins : istream) : istream :=
  mkIstream (buf ins) (eofbit ins) true.

Definition istream_of (s : string) : istream := mkIstream s false false.

Definition is_empty (s : string) : bool :=
  match s with EmptyString => true | _ => false end.

(** [std::getline(in, line)].  When the sentry fails the string is left as it
    was; otherwise it is erased and filled up to the delimiter, which is
    extracted and dropped.  Reaching the end sets eofbit, and extracting
    nothing at all sets failbit. *)
Definition getline (ins : istream) (line : string) : string * istream :=
  if good ins then
    let '(l, r, found) := cut_line (buf ins) in
    if found then (l, mkIstream r false false)
    else (l, mkIstream EmptyString true (is_empty l))
  else (line, setfail ins).

(** A formatted input function: the sentry skips white space; [get] is the
    [num_get] conversion, giving the value to store, whether it succeeded
    and the characters left.  A failed sentry leaves the target untouched. *)
Definition formatted_input {A} (get : string -> A * bool * string)
    (ins : istream) (v : A) : A * istream :=
  if good ins then
    match skipws (buf ins) with
    | EmptyString => (v, mkIstream EmptyString true true)
    | b =>
        let '(x, ok, rest) := get b in
        (x, mkIstream rest (is_empty rest) (negb ok))
    end
  else (v, setfail ins).

(** The digits of an integer field: value, number of digits, rest. *)
Fixpoint scan_digits (s : string) (acc : Z) (n : nat) : Z * nat * string :=
  match s with
  | String c s' =>
      match digit_of c with
      | Some d => scan_digits s' (10 * acc + d) (S n)
      | None => (acc, n, s)
      end
  | EmptyString => (acc, n, s)
  end.

(** Sign and magnitude of a decimal integer field; no magnitude when the
    field has no digit. *)
Definition scan_integer (s : string) : bool * option Z * string :=
  let '(neg, s1) :=
    match s with
    | String c s' =>
        if Ascii.eqb c "-"%char then (true, s')
        else if Ascii.eqb c "+"%char then (false, s')
        else (false, s)
    | EmptyString => (false, s)
    end in
  let '(m, n, rest) := scan_digits s1 0 0 in
  if Nat.eqb n 0 then (neg, None, rest) else (neg, Some m, rest).

(** [num_get] for [int]: zero on a field without digits, the nearest bound
    on overflow, failure in both cases. *)
Definition get_int (s : string) : Z * bool * string :=
  match scan_integer s with
  | (_, None, rest) => (0, false, rest)
  | (neg, Some m, rest) =>
      let z := if neg then - m else m in
      if z <? INT_MIN then (INT_MIN, false, rest)
      else if INT_MAX <? z then (INT_MAX, false, rest)
      else (z, true, rest)
  end.

(** [num_get] for [unsigned int]: a negated field wraps around. *)
Definition get_uint (s : string) : Z * bool * string :=
  match scan_integer s with
  | (_, None, rest) => (0, false, rest)
  | (neg, Some m, rest) =>
      if UINT_MAX <? m then (UINT_MAX, false, rest)
      else ((if neg then to_uint (- m) else m), true, rest)
  end.

(** [in >> n] for an [unsigned int]. *)
Definition extract_uint := formatted_input get_uint.

(* ------------------------------------------------------------------ *)
(** ** std::ostream *)

Inductive floatfield : Type := ff_default | ff_fixed | ff_scientific.
Inductive adjustfield : Type := adj_default | adj_left | adj_right | adj_internal.

(** The text written so far and the formatting state the manipulators of
    [write] touch.  The fill character is the space a stream starts with;
    the codec never changes it. *)
Record ostream : Type := mkOstream {
  text : string;
  width : nat;
  precision : nat;
  floatf : floatfield;
  adjust : adjustfield
}.

Definition ostream_new : ostream := mkOstream "" 0 6 ff_default adj_default.

Definition setw (n : nat) (o : ostream) : ostream :=
  mkOstream (text o) n (precision o) (floatf o) (adjust o).
Definition setprecision (n : nat) (o : ostream) : ostream :=
  mkOstream (text o) (width o) n (floatf o) (adjust o).
Definition set_fixed (o : ostream) : ostream :=
  mkOstream (text o) (width o) (precision o) ff_fixed (adjust o).
Definition set_scientific (o : ostream) : ostream :=
  mkOstream (text o) (width o) (precision o) ff_scientific (adjust o).
Definition set_right (o : ostream) : ostream :=
  mkOstream (text o) (width o) (precision o) (floatf o) adj_right.

(** A field padded to [w] characters, the text at the right end. *)
Definition right_justified (w : nat) (s : string) : string :=
  repeat_char space (w - String.length s) ++ s.

Definition left_justified (w : nat) (s : string) : string :=
  s ++ repeat_char space (w - String.length s).

(** Every formatted output pads its field to the width in force and puts the
    width back to zero.  The codec writes numbers only after [std::right]. *)
Definition put_field (s : string) (o : ostream) : ostream :=
  let field :=
    match adjust o with
    | adj_left => left_justified (width o) s
    | _ => right_justified (width o) s
    end in
  mkOstream (text o ++ field) 0 (precision o) (floatf o) (adjust o).

Definition put_string (s : string) (o : ostream) : ostream := put_field s o.

(** The decimal digits of a non-negative integer. *)
Definition dec_string (z : Z) : string :=
  DecimalString.NilZero.string_of_uint (N.to_uint (Z.to_N z)).

(** [out << n] for an [unsigned int]. *)
Definition put_uint (n : Z) (o : ostream) : ostream := put_field (dec_string n) o.

(* ------------------------------------------------------------------ *)
(** ** Floating-point types and the locale facets *)

Class Numerics : Type := {
  Real : Type;                      (* double *)
  float : Type;
  Real_zero : Real;                 (* the literal 0.0 *)
  float_zero : float;               (* a value-initialised float *)
  Real_mul : Real -> Real -> Real;
  (* num_get: the value it stores, whether the field converted, the rest *)
  num_get_double : string -> Real * bool * string;
  num_get_float : string -> float * bool * string;
  (* num_put: the digits for a float field and a precision *)
  num_put_double : floatfield -> nat -> Real -> string;
  num_put_float : floatfield -> nat -> float -> string
}.

(** Avogadro's core utilities and unit constants, as [read] and [write] use
    them: each cast returns a value of its target type. *)
Class CoreUtilities `{Numerics} : Type := {
  BOHR_TO_ANGSTROM : Real;
  ANGSTROM_TO_BOHR : Real;
  trimmed : string -> string;
  split : string -> ascii -> list string;
  lexicalCast_int : string -> Z;
  lexicalCast_short : string -> Z;
  lexicalCast_double : string -> Real
}.

Section Codec.

Context {NU : Numerics} {CU : CoreUtilities}.

Definition Vector3 : Type := Vec3 Real.
Definition Vector3i : Type := Vec3 Z.

(** [v * k], component by component. *)
Definition vscale (v : Vector3) (k : Real) : Vector3 :=
  vmap (fun c => Real_mul c k) v.

Definition zero3 : Vector3 := mkVec3 Real_zero Real_zero Real_zero.

(** Extraction into a local that has no value yet. *)
Definition fresh {A} (get : string -> A * bool * string)
  : string -> option A * bool * string :=
  fun s => let '(x, ok, rest) := get s in (Some x, ok, rest).

(** [in >> value] for a [float]. *)
Definition extract_float := formatted_input num_get_float.

Definition put_double (x : Real) (o : ostream) : ostream :=
  put_field (num_put_double (floatf o) (precision o) x) o.
Definition put_float (x : float) (o : ostream) : ostream :=
  put_field (num_put_float (floatf o) (precision o) x) o.

(* ------------------------------------------------------------------ *)
(** ** Molecule and Cube *)

(** Modelled from the spec: the atom behind an AtomHandle (Core::Atom,
    avogadro/core, not among the sources): its atomic number and its
    position. *)
Record Atom : Type := mkAtom {
  atomicNumber : Z;          (* unsigned char *)
  position3d : Vector3
}.

(** Modelled from the spec: the Grid (Core::Cube, avogadro/core, not among
    the sources): origin, dimensions, spacing and the flat sample buffer. *)
Record Cube : Type := mkCube {
  cube_min : Vector3;
  cube_dimensions : Vector3i;
  cube_spacing : Vector3;
  cube_data : list float
}.

(** The calls a molecule has received, oldest first. *)
Inductive call : Type :=
| call_setData (key value : string)
| call_addAtom (atomicNum : Z)
| call_setPosition3d (atom : nat)
| call_perceiveBondsSimple
| call_addCube
| call_setLimits (cube : nat)
| call_cube_setData (cube : nat).

(** Modelled from the spec: Core::Molecule and Core::Cube (avogadro/core,
    not among the sources), by the interface the spec lists for Structure,
    AtomHandle and GridHandle: the "name" attribute, the atom list, the cube
    list.  [history] records the calls made on the molecule and its
    handles. *)
Record Molecule : Type := mkMolecule {
  name : string;
  atoms : list Atom;
  cubes : list Cube;
  history : list call
}.

Definition empty_molecule : Molecule := mkMolecule "" [] [] [].

Definition atomCount (m : Molecule) : nat := List.length (atoms m).
Definition cubeCount (m : Molecule) : nat := List.length (cubes m).

Fixpoint set_nth {A} (i : nat) (x : A) (l : list A) : list A :=
  match l, i with
  | [], _ => []
  | _ :: t, O => x :: t
  | h :: t, S i' => h :: set_nth i' x t
  end.

Definition logged (c : call) (m : Molecule) : list call := history m ++ [c].

(** Modelled from the spec: [setData(key, value)] of the Structure, for the
    key "name". *)
Definition setData_name (value : string) (m : Molecule) : Molecule :=
  mkMolecule value (atoms m) (cubes m) (logged (call_setData "name" value) m).

(** Modelled from the spec: [addAtom(atomicNumber) -> AtomHandle] of the
    Structure; the handle is the index of the new, last atom. *)
Definition addAtom (z : Z) (m : Molecule) : nat * Molecule :=
  (atomCount m,
   mkMolecule (name m) (atoms m ++ [mkAtom z zero3]) (cubes m)
     (logged (call_addAtom z) m)).

(** Modelled from the spec: [setPosition3d(vec3)] of the AtomHandle [a]. *)
Definition setPosition3d (a : nat) (pos : Vector3) (m : Molecule) : Molecule :=
  match nth_error (atoms m) a with
  | Some at0 =>
      mkMolecule (name m) (set_nth a (mkAtom (atomicNumber at0) pos) (atoms m))
        (cubes m) (logged (call_setPosition3d a) m)
  | None => mkMolecule (name m) (atoms m) (cubes m) (logged (call_setPosition3d a) m)
  end.

(** Modelled from the spec: [perceiveBondsSimple()] of the Structure, the
    bond inference; bonds are not part of this model, the call is. *)
Definition perceiveBondsSimple (m : Molecule) : Molecule :=
  mkMolecule (name m) (atoms m) (cubes m) (logged call_perceiveBondsSimple m).

(** Modelled from the spec: [addCube() -> GridHandle] of the Structure; the
    handle is the index of the new, last cube. *)
Definition addCube (m : Molecule) : nat * Molecule :=
  (cubeCount m,
   mkMolecule (name m) (atoms m)
     (cubes m ++ [mkCube zero3 (mkVec3 0 0 0) zero3 []])
     (logged call_addCube m)).

Definition update_cube (c : nat) (f : Cube -> Cube) (m : Molecule) : list Cube :=
  match nth_error (cubes m) c with
  | Some cb => set_nth c (f cb) (cubes m)
  | None => cubes m
  end.

(** Modelled from the spec: [setLimits(origin, dims, spacing)] of the
    GridHandle [c]. *)
Definition setLimits (c : nat) (min : Vector3) (dim : Vector3i)
    (spacing : Vector3) (m : Molecule) : Molecule :=
  mkMolecule (name m) (atoms m)
    (update_cube c (fun cb => mkCube min dim spacing (cube_data cb)) m)
    (logged (call_setLimits c) m).

(** Modelled from the spec: [setData(buffer)] of the GridHandle [c]. *)
Definition cube_setData (c : nat) (values : list float) (m : Molecule) : Molecule :=
  mkMolecule (name m) (atoms m)
    (update_cube c (fun cb =>
       mkCube (cube_min cb) (cube_dimensions cb) (cube_spacing cb) values) m)
    (logged (call_cube_setData c) m).

(* ------------------------------------------------------------------ *)
(** ** GaussianCube::read *)

Definition rstate : Type := (istream * Molecule)%type.

Notation "' x @ s <- m ;; k" := (bind m (fun x s => k))
  (at level 10, x pattern, s pattern, m at level 100, k at level 200).

(** The name line, the title line, then [nAtoms] and [min] and the rest of
    their line.  [nAtoms] and [min] are locals without an initial value. *)
Definition read_header (ins : istream) (molecule : Molecule)
  : string * option Z * Vec3 (option Real) * istream * Molecule :=
  let '(line, ins) := getline ins "" in
  let molecule := setData_name line molecule in
  let '(line, ins) := getline ins line in
  let '(nAtoms, ins) := formatted_input (fresh get_int) ins None in
  let '(m0, ins) := formatted_input (fresh num_get_double) ins None in
  let '(m1, ins) := formatted_input (fresh num_get_double) ins None in
  let '(m2, ins) := formatted_input (fresh num_get_double) ins None in
  let '(line, ins) := getline ins line in
  (line, nAtoms, mkVec3 m0 m1 m2, ins, molecule).

(** One round of the loop over the axis lines: [dim(i)] and [spacing(i)]. *)
Definition read_axis (i : nat) (line : string) (ins : istream)
  : option (Z * Real * string * istream) :=
  let '(line, ins) := getline ins line in
  let line := trimmed line in
  let list := split line space in
  match nth_error list 0, nth_error list (i + 1) with
  | Some f0, Some fi =>
      Some (lexicalCast_int f0, lexicalCast_double fi, line, ins)
  | _, _ => None
  end.

Definition read_axes (line : string) (ins : istream)
  : option (Vector3i * Vector3 * string * istream) :=
  match read_axis 0 line ins with
  | None => None
  | Some (d0, s0, line, ins) =>
      match read_axis 1 line ins with
      | None => None
      | Some (d1, s1, line, ins) =>
          match read_axis 2 line ins with
          | None => None
          | Some (d2, s2, line, ins) =>
              Some (mkVec3 d0 d1 d2, mkVec3 s0 s1 s2, line, ins)
          end
      end
  end.

(** The atom a geometry line stands for, as [read] stores it. *)
Definition atom_of_fields (list : list string) : option Atom :=
  match nth_error list 0, nth_error list 2, nth_error list 3, nth_error list 4 with
  | Some f0, Some f2, Some f3, Some f4 =>
      let atomNum := lexicalCast_short f0 in
      let pos := mkVec3 (lexicalCast_double f2) (lexicalCast_double f3)
                        (lexicalCast_double f4) in
      Some (mkAtom (to_uchar atomNum) (vscale pos BOHR_TO_ANGSTROM))
  | _, _, _, _ => None
  end.

(** The geometry block: [n] rounds of the loop over the atom lines. *)
Fixpoint read_geometry (n : nat) (line : string) (ins : istream)
    (molecule : Molecule) : outcome rstate string :=
  match n with
  | O => Returned line (ins, molecule)
  | S n' =>
      let '(line, ins) := getline ins line in
      let line := trimmed line in
      let list := split line space in
      match atom_of_fields list with
      | Some atom =>
          let '(a, molecule) := addAtom (atomicNumber atom) molecule in
          let molecule := setPosition3d a (position3d atom) molecule in
          read_geometry n' line ins molecule
      | None => Undefined
      end
  end.

(** [in >> moList[i]] for each of the [n] entries. *)
Fixpoint read_moList (n : nat) (ins : istream) : istream :=
  match n with
  | O => ins
  | S n' => read_moList n' (snd (extract_uint ins 0))
  end.

(** The line of a multi-cube file that follows the atoms. *)
Definition read_cube_count (nAtoms : Z) (line : string) (ins : istream)
  : Z * string * istream :=
  let nCubes := 1 in
  if nAtoms <? 0 then
    let '(nCubes, ins) := extract_uint ins nCubes in
    let ins := read_moList (Z.to_nat nCubes) ins in
    let '(line, ins) := getline ins line in
    (nCubes, line, ins)
  else (nCubes, line, ins).

(** [for (float& value : values) in >> value;] over [n] zeroed values. *)
Fixpoint read_values (n : nat) (ins : istream) : list float * istream :=
  match n with
  | O => ([], ins)
  | S n' =>
      let '(value, ins) := extract_float ins float_zero in
      let '(values, ins) := read_values n' ins in
      (value :: values, ins)
  end.

(** The cube block: [n] rounds.  The size of the buffer is an [int] product;
    a negative one, converted to [size_t], exceeds what a vector can hold.
    Exhaustion of memory is not modelled. *)
Fixpoint read_cubes (n : nat) (min : Vector3) (dim : Vector3i) (spacing : Vector3)
    (line : string) (ins : istream) (molecule : Molecule) : outcome rstate string :=
  match n with
  | O => Returned line (ins, molecule)
  | S n' =>
      let '(cube, molecule) := addCube molecule in
      let molecule := setLimits cube min dim spacing molecule in
      let p01 := v0 dim * v1 dim in
      if negb (in_int p01) then Undefined else
      let size := p01 * v2 dim in
      if negb (in_int size) then Undefined else
      if size <? 0 then Thrown length_error (ins, molecule) else
      let '(values, ins) := read_values (Z.to_nat size) ins in
      let '(line, ins) := getline ins line in
      let molecule := cube_setData cube values molecule in
      read_cubes n' min dim spacing line ins molecule
  end.

(** The locals of [read] when it reaches its [return]. *)
Record locals : Type := mkLocals {
  l_nAtoms : Z;
  l_min : Vector3;
  l_spacing : Vector3;
  l_dim : Vector3i;
  l_nCubes : Z;
  l_line : string
}.

Definition read_body (ins : istream) (molecule : Molecule) : outcome rstate locals :=
  let '(line, nAtoms, min, ins, molecule) := read_header ins molecule in
  match read_axes line ins with
  | None => Undefined
  | Some (dim, spacing, line, ins) =>
      match nAtoms with
      | None => Undefined
      | Some nAtoms =>
          if nAtoms =? INT_MIN then Undefined else
          ' line @ (ins, molecule) <-
             read_geometry (Z.abs_nat nAtoms) line ins molecule ;;
          let '(nCubes, line, ins) := read_cube_count nAtoms line ins in
          let molecule := perceiveBondsSimple molecule in
          match vinit min with
          | None => Undefined
          | Some min =>
              let min := vscale min BOHR_TO_ANGSTROM in
              let spacing := vscale spacing BOHR_TO_ANGSTROM in
              ' line @ s <-
                 read_cubes (Z.to_nat nCubes) min dim spacing line ins molecule ;;
              Returned (mkLocals nAtoms min spacing dim nCubes line) s
          end
      end
  end.

Definition read (ins : istream) (molecule : Molecule) : outcome rstate bool :=
  ' _ @ s <- read_body ins molecule ;;
  Returned true s.

(* ------------------------------------------------------------------ *)
(** ** GaussianCube::write *)

Definition writeFixedFloat (outStream : ostream) (number : Real) : ostream :=
  put_double number
    (setprecision 6 (set_right (set_fixed (setw 12 outStream)))).

(** The parameter is an [unsigned int]: the argument is converted to it. *)
Definition writeFixedInt (outStream : ostream) (number : Z) : ostream :=
  put_uint (to_uint number) (set_right (set_fixed (setw 5 outStream))).

Definition banner : string := "Gaussian Cube file generated by Avogadro.".
Definition nl : string := String newline EmptyString.

(** An axis line: the dimension, then the spacing in column [i]. *)
Definition write_axis (i : nat) (d : Z) (s : Real) (outStream : ostream) : ostream :=
  let outStream := writeFixedInt outStream d in
  let outStream := writeFixedFloat outStream (if Nat.eqb i 0 then s else Real_zero) in
  let outStream := writeFixedFloat outStream (if Nat.eqb i 1 then s else Real_zero) in
  let outStream := writeFixedFloat outStream (if Nat.eqb i 2 then s else Real_zero) in
  put_string nl outStream.

Definition write_atom (atom : Atom) (outStream : ostream) : ostream :=
  let outStream := writeFixedInt outStream (atomicNumber atom) in
  let outStream := writeFixedFloat outStream Real_zero in
  let outStream := writeFixedFloat outStream
                     (Real_mul (v0 (position3d atom)) ANGSTROM_TO_BOHR) in
  let outStream := writeFixedFloat outStream
                     (Real_mul (v1 (position3d atom)) ANGSTROM_TO_BOHR) in
  let outStream := writeFixedFloat outStream
                     (Real_mul (v2 (position3d atom)) ANGSTROM_TO_BOHR) in
  put_string nl outStream.

(** The loop over the atoms, [n] rounds from index [i]; an atom handle is
    valid when its index is below the atom count. *)
Fixpoint write_atoms (n : nat) (i : nat) (mol : Molecule) (outStream : ostream)
  : bool * ostream :=
  match n with
  | O => (true, outStream)
  | S n' =>
      match nth_error (atoms mol) i with
      | None => (false, outStream)
      | Some atom => write_atoms n' (S i) mol (write_atom atom outStream)
      end
  end.

(** The loop over the raw cube values, from index [i]. *)
Fixpoint write_values (values : list float) (i : Z) (outStream : ostream) : ostream :=
  match values with
  | [] => outStream
  | value :: rest =>
      let outStream :=
        put_float value
          (setprecision 5 (set_scientific (set_right (setw 13 outStream)))) in
      let outStream :=
        if i mod 6 =? 5 then put_string nl outStream else outStream in
      write_values rest (i + 1) outStream
  end.

(** The counter of the value loop is an [unsigned int] compared with a
    [size_t]: over a buffer of more than [UINT_MAX] values it wraps to zero
    before it reaches the size. *)
Definition write (outStream : ostream) (mol : Molecule) : outcome ostream bool :=
  match cubes mol with
  | [] => Returned false outStream
  | cube :: _ =>
      let min := vscale (cube_min cube) ANGSTROM_TO_BOHR in
      let spacing := vscale (cube_spacing cube) ANGSTROM_TO_BOHR in
      let dim := cube_dimensions cube in
      let outStream := put_string (banner ++ nl) outStream in
      let outStream :=
        if Nat.eqb (String.length (name mol)) 0 then put_string nl outStream
        else put_string nl (put_string (name mol) outStream) in
      let numAtoms := atomCount mol in
      let outStream := writeFixedInt outStream (Z.of_nat numAtoms) in
      let outStream := writeFixedFloat outStream (v0 min) in
      let outStream := writeFixedFloat outStream (v1 min) in
      let outStream := writeFixedFloat outStream (v2 min) in
      let outStream := writeFixedInt outStream 1 in
      let outStream := put_string nl outStream in
      let outStream := write_axis 0 (v0 dim) (v0 spacing) outStream in
      let outStream := write_axis 1 (v1 dim) (v1 spacing) outStream in
      let outStream := write_axis 2 (v2 dim) (v2 spacing) outStream in
      match write_atoms numAtoms 0 mol outStream with
      | (false, outStream) => Returned false outStream
      | (true, outStream) =>
          let values := cube_data cube in
          if UINT_MAX <? Z.of_nat (List.length values) then Diverges
          else Returned true (write_values values 0 outStream)
      end
  end.

(* ------------------------------------------------------------------ *)
(** ** GaussianCube::fileExtensions and GaussianCube::mimeTypes *)

Definition fileExtensions : list string := [] ++ ["cube"].

Definition mimeTypes : list string := [].

End Codec.

(* ------------------------------------------------------------------ *)
(** ** An instance to run the codec on concrete files

    Floating values are the rationals they denote (no rounding in
    arithmetic); text is converted to them exactly and printed with the
    digits [printf] gives (round half to even at the last place). *)

Module Exact.

Local Open Scope Q_scope.

Definition pow10 (e : Z) : Q := Qpower (10 # 1) e.

(** The nearest integer to a non-negative rational, ties to even. *)
Definition round_half_even (q : Q) : Z :=
  let n := Qnum q in
  let d := Zpos (Qden q) in
  let fl := (n / d)%Z in
  let r2 := (2 * (n mod d))%Z in
  if (r2 <? d)%Z then fl
  else if (d <? r2)%Z then (fl + 1)%Z
  else if Z.even fl then fl else (fl + 1)%Z.

Definition pad_zeros (w : nat) (s : string) : string :=
  (repeat_char "0"%char (w - String.length s) ++ s)%string.

Definition sign_string (q : Q) : string :=
  if (Qnum q <? 0)%Z then "-"%string else ""%string.

(** [%.*f] *)
Definition put_fixed (prec : nat) (q : Q) : string :=
  let p := (10 ^ Z.of_nat prec)%Z in
  let n := round_half_even (Qabs q * inject_Z p) in
  (sign_string q ++ dec_string (n / p)
   ++ (if Nat.eqb prec 0 then ""
       else "." ++ pad_zeros prec (dec_string (n mod p))))%string.

Definition ndigits (z : Z) : Z := Z.of_nat (String.length (dec_string z)).

(** [%.*e] *)
Definition put_scientific (prec : nat) (q : Q) : string :=
  let p := (10 ^ Z.of_nat prec)%Z in
  let a := Qabs q in
  let e0 := (ndigits (Qnum a) - ndigits (Zpos (Qden a)))%Z in
  let e := if Qle_bool (pow10 e0) a then e0 else (e0 - 1)%Z in
  let m := round_half_even (a / pow10 e * inject_Z p) in
  let '(m, e) :=
    if (Qnum q =? 0)%Z then (0%Z, 0%Z)
    else if (10 * p <=? m)%Z then ((m / 10)%Z, (e + 1)%Z) else (m, e) in
  (sign_string q ++ dec_string (m / p)
   ++ (if Nat.eqb prec 0 then ""
       else "." ++ pad_zeros prec (dec_string (m mod p)))
   ++ "e" ++ (if (e <? 0)%Z then "-" else "+")
   ++ pad_zeros 2 (dec_string (Z.abs e)))%string.

Definition put_float_field (f : floatfield) (prec : nat) (q : Q) : string :=
  match f with
  | ff_scientific => put_scientific prec q
  | _ => put_fixed prec q
  end.

(** A decimal floating field: sign, digits with an optional point, and an
    optional exponent; it converts when the mantissa has a digit and the
    exponent, if begun, has one. *)
Definition scan_float (s : string) : option Q * string :=
  let '(neg, s1) :=
    match s with
    | String c s' =>
        if Ascii.eqb c "-"%char then (true, s')
        else if Ascii.eqb c "+"%char then (false, s')
        else (false, s)
    | EmptyString => (false, s)
    end in
  let '(ip, n1, s2) := scan_digits s1 0 0 in
  let '(fp, n2, s3) :=
    match s2 with
    | String c s' =>
        if Ascii.eqb c "."%char then scan_digits s' 0 0 else (0%Z, 0%nat, s2)
    | EmptyString => (0%Z, 0%nat, s2)
    end in
  if Nat.eqb (n1 + n2) 0 then (None, s3)
  else
    let scale := (10 ^ Z.of_nat n2)%Z in
    let mant := Qmake (ip * scale + fp) (Z.to_pos scale) in
    let mant := if neg then - mant else mant in
    match s3 with
    | String c s' =>
        if (Ascii.eqb c "e"%char || Ascii.eqb c "E"%char)%bool then
          match scan_integer s' with
          | (eneg, Some m, rest) =>
              (Some (Qred (mant * pow10 (if eneg then - m else m))), rest)
          | (_, None, rest) => (None, rest)
          end
        else (Some (Qred mant), s3)
    | EmptyString => (Some (Qred mant), s3)
    end.

(** A field that does not convert stores zero. *)
Definition get_floating (s : string) : Q * bool * string :=
  match scan_float s with
  | (Some x, rest) => (x, true, rest)
  | (None, rest) => (0, false, rest)
  end.

#[export] Instance numerics : Numerics := {
  Real := Q;
  float := Q;
  Real_zero := 0;
  float_zero := 0;
  Real_mul := fun a b => Qred (a * b);
  num_get_double := get_floating;
  num_get_float := get_floating;
  num_put_double := put_float_field;
  num_put_float := put_float_field
}.

Definition is_blank (c : ascii) : bool :=
  (Ascii.eqb c " "%char || Ascii.eqb c "009"%char
   || Ascii.eqb c "010"%char || Ascii.eqb c "013"%char)%bool.

Fixpoint drop_blanks (s : string) : string :=
  match s with
  | String c s' => if is_blank c then drop_blanks s' else s
  | EmptyString => s
  end.

Fixpoint rev_string (s acc : string) : string :=
  match s with
  | String c s' => rev_string s' (String c acc)
  | EmptyString => acc
  end.

Definition trim (s : string) : string :=
  rev_string (drop_blanks (rev_string (drop_blanks s) "")) "".

(** The pieces of [s] between occurrences of [d]; [cur] is the piece being
    read, reversed.  Empty pieces are dropped. *)
Fixpoint split_at (d : ascii) (s : string) (cur : string) : list string :=
  let flush := match cur with
               | EmptyString => []
               | _ => [rev_string cur ""]
               end in
  match s with
  | EmptyString => flush
  | String c s' =>
      if Ascii.eqb c d then (flush ++ split_at d s' "")%list
      else split_at d s' (String c cur)
  end.

Definition get_short (s : string) : Z * bool * string :=
  match scan_integer s with
  | (_, None, rest) => (0%Z, false, rest)
  | (neg, Some m, rest) =>
      let z := (if neg then - m else m)%Z in
      if (z <? -32768)%Z then ((-32768)%Z, false, rest)
      else if (32767 <? z)%Z then (32767%Z, false, rest)
      else (z, true, rest)
  end.

(** Modelled from the spec: the Bohr-to-Angstrom factor [k] with its
    inverse [1/k], and the pre-existing primitives trim, split and lexical
    cast of Avogadro's core utilities (avogadro/core/utilities.h, not among
    the sources).  A cast extracts one value from a stream over the text. *)
#[export] Instance core : CoreUtilities := {
  BOHR_TO_ANGSTROM := 529177210903 # 1000000000000;
  ANGSTROM_TO_BOHR := 1000000000000 # 529177210903;
  trimmed := trim;
  split := fun s d => split_at d s "";
  lexicalCast_int := fun s => fst (formatted_input get_int (istream_of s) 0%Z);
  lexicalCast_short := fun s => fst (formatted_input get_short (istream_of s) 0%Z);
  lexicalCast_double :=
    fun s => fst (formatted_input get_floating (istream_of s) 0)
}.

(** A grid of one sample. *)
Definition unit_cube : @Cube numerics :=
  mkCube (mkVec3 0 0 0) (mkVec3 1%Z 1%Z 1%Z) (mkVec3 1 1 1) [0].

(** The first scenario of the format: two atoms, a 2x2x2 grid. *)
Definition co_file : string :=
  ("CO" ++ nl ++ "density" ++ nl
   ++ "2 0.0 0.0 0.0" ++ nl
   ++ "2 0.5 0.0 0.0" ++ nl
   ++ "2 0.0 0.5 0.0" ++ nl
   ++ "2 0.0 0.0 0.5" ++ nl
   ++ "6 0.0 0.0 0.0 0.0" ++ nl
   ++ "8 0.0 1.0 0.0 0.0" ++ nl
   ++ "0 1 2 3 4 5" ++ nl ++ "6 7" ++ nl)%string.

(** Decoding a text into a fresh molecule, encoding to a fresh stream. *)
Definition decode (file : string) : outcome (@rstate numerics) bool :=
  @read numerics core (istream_of file) empty_molecule.

Definition encode (mol : @Molecule numerics) : outcome ostream bool :=
  @write numerics core ostream_new mol.

(** The text of an encoding that returned [true]. *)
Definition encoded (mol : @Molecule numerics) : option string :=
  match encode mol with
  | Returned true o => Some (text o)
  | _ => None
  end.

(** The molecule of a decoding that returned [true]. *)
Definition decoded (file : string) : option (@Molecule numerics) :=
  match decode file with
  | Returned true (_, m) => Some m
  | _ => None
  end.

(** The scenario with a token that is no number where the first atomic
    number belongs, and with three of the eight samples only. *)
Definition malformed_file : string :=
  ("CO" ++ nl ++ "density" ++ nl
   ++ "2 0.0 0.0 0.0" ++ nl
   ++ "2 0.5 0.0 0.0" ++ nl
   ++ "2 0.0 0.5 0.0" ++ nl
   ++ "2 0.0 0.0 0.5" ++ nl
   ++ "X 0.0 0.0 0.0 0.0" ++ nl
   ++ "8 0.0 1.0 0.0 0.0" ++ nl
   ++ "0 1 2" ++ nl)%string.

(** The scenario with a zero count on the first axis line. *)
Definition zero_dim_file : string :=
  ("CO" ++ nl ++ "density" ++ nl
   ++ "2 0.0 0.0 0.0" ++ nl
   ++ "0 0.5 0.0 0.0" ++ nl
   ++ "2 0.0 0.5 0.0" ++ nl
   ++ "2 0.0 0.0 0.5" ++ nl
   ++ "6 0.0 0.0 0.0 0.0" ++ nl
   ++ "8 0.0 1.0 0.0 0.0" ++ nl)%string.

(** The scenario with sheared axis vectors. *)
Definition sheared_file : string :=
  ("CO" ++ nl ++ "density" ++ nl
   ++ "2 0.0 0.0 0.0" ++ nl
   ++ "2 0.5 0.1 0.2" ++ nl
   ++ "2 0.3 0.5 0.4" ++ nl
   ++ "2 0.6 0.7 0.5" ++ nl
   ++ "6 0.0 0.0 0.0 0.0" ++ nl
   ++ "8 0.0 1.0 0.0 0.0" ++ nl
   ++ "0 1 2 3 4 5" ++ nl ++ "6 7" ++ nl)%string.

(** The second scenario: one atom, two grids of one sample. *)
Definition two_cube_file : string :=
  ("H" ++ nl ++ "orbitals" ++ nl
   ++ "-1 0.0 0.0 0.0" ++ nl
   ++ "1 0.5 0.0 0.0" ++ nl
   ++ "1 0.0 0.5 0.0" ++ nl
   ++ "1 0.0 0.0 0.5" ++ nl
   ++ "1 0.0 0.0 0.0 0.0" ++ nl
   ++ "2 5 6" ++ nl
   ++ "0.25" ++ nl ++ "0.75" ++ nl)%string.

(** A molecule with one grid and a name of several lines: the lines after
    the first are those of a cube file without grids. *)
Definition multiline_name : string :=
  ("n" ++ nl
   ++ "-1 0 0 0" ++ nl
   ++ "1 1 0 0" ++ nl
   ++ "1 0 1 0" ++ nl
   ++ "1 0 0 1" ++ nl
   ++ "1 0 0 0 0" ++ nl
   ++ "0")%string.

Definition multiline_molecule : @Molecule numerics :=
  mkMolecule multiline_name [] [unit_cube] [].

Definition water_molecule : @Molecule numerics :=
  mkMolecule "water" [mkAtom 8%Z (mkVec3 0 0 0)] [unit_cube] [].

(** The state a decoding ends in, and the stream an encoding ends in. *)
Definition decode_state (file : string) : @rstate numerics :=
  state_or (istream_of "", empty_molecule) (decode file).

Definition decode_result (file : string) : bool :=
  result_or false (decode file).

Definition encode_stream (mol : @Molecule numerics) : ostream :=
  state_or ostream_new (encode mol).

Definition encode_result (mol : @Molecule numerics) : bool :=
  result_or false (encode mol).

(** The locals a decoding returns with. *)
Definition decode_locals (file : string) : @locals numerics :=
  result_or (mkLocals 0%Z (mkVec3 0 0 0) (mkVec3 0 0 0) (mkVec3 0%Z 0%Z 0%Z) 0%Z "")
    (@read_body numerics core (istream_of file) empty_molecule).


(** The first scenario with 300 where the atomic number of the carbon
    belongs. *)
Definition wide_number_file : string :=
  ("CO" ++ nl ++ "density" ++ nl
   ++ "2 0.0 0.0 0.0" ++ nl
   ++ "2 0.5 0.0 0.0" ++ nl
   ++ "2 0.0 0.5 0.0" ++ nl
   ++ "2 0.0 0.0 0.5" ++ nl
   ++ "300 0.0 0.0 0.0 0.0" ++ nl
   ++ "8 0.0 1.0 0.0 0.0" ++ nl
   ++ "0 1 2 3 4 5" ++ nl ++ "6 7" ++ nl)%string.

(** The first scenario with -2 points on the first axis. *)
Definition negative_dim_file : string :=
  ("CO" ++ nl ++ "density" ++ nl
   ++ "2 0.0 0.0 0.0" ++ nl
   ++ "-2 0.5 0.0 0.0" ++ nl
   ++ "2 0.0 0.5 0.0" ++ nl
   ++ "2 0.0 0.0 0.5" ++ nl
   ++ "6 0.0 0.0 0.0 0.0" ++ nl
   ++ "8 0.0 1.0 0.0 0.0" ++ nl
   ++ "0 1 2 3 4 5" ++ nl ++ "6 7" ++ nl)%string.

(** A file that ends after its title line. *)
Definition two_line_file : string := ("CO" ++ nl ++ "density" ++ nl)%string.

(** The state in which [read] of a file into a molecule ends. *)
Definition read_state (file : string) (mol : @Molecule numerics)
  : @rstate numerics :=
  state_or (istream_of "", empty_molecule)
    (@read numerics core (istream_of file) mol).

(** A molecule with a 2x2x2 grid of the samples 0 to 7. *)
Definition grid_cube : @Cube numerics :=
  mkCube (mkVec3 0 0 0) (mkVec3 2%Z 2%Z 2%Z) (mkVec3 1 1 1)
    [0; 1; 2; 3; 4; 5; 6; 7 # 1].

Definition grid_molecule : @Molecule numerics :=
  mkMolecule "grid" [] [grid_cube] [].

End Exact.

(* ------------------------------------------------------------------ *)
(** ** The layout of a cube file, stated apart from the stream code *)

Section Layout.

Context {NU : Numerics} {CU : CoreUtilities}.

(** [nAtoms] as the header leaves it. *)
Definition header_nAtoms (ins : istream) : option Z :=
  let '(_, nAtoms, _, _, _) := read_header ins empty_molecule in nAtoms.

(** [min] as the header leaves it, in the unit of the file. *)
Definition header_min (ins : istream) : Vec3 (option Real) :=
  let '(_, _, min, _, _) := read_header ins empty_molecule in min.

(** The line buffer and the stream when the axis block begins. *)
Definition axes_start (ins : istream) : string * istream :=
  let '(line, _, _, ins, _) := read_header ins empty_molecule in (line, ins).

(** The field lists of the next [n] lines, each trimmed and split as the
    loops of [read] do, with the line buffer as they leave it. *)
Fixpoint field_lists (n : nat) (line : string) (ins : istream)
  : list (list string) :=
  match n with
  | O => []
  | S n' =>
      let '(line, ins) := getline ins line in
      let line := trimmed line in
      split line space :: field_lists n' line ins
  end.

(** Field [j] of a list of fields. *)
Definition field (fields : list string) (j : nat) : string := nth j fields "".

(** The line buffer and the stream when the geometry block begins. *)
Definition geometry_start (ins : istream) : option (string * istream) :=
  let '(line, ins) := axes_start ins in
  match read_axes line ins with
  | Some (_, _, line, ins) => Some (line, ins)
  | None => None
  end.

(** The position a geometry line gives, in the unit of the file. *)
Definition file_position (fields : list string) : Vector3 :=
  mkVec3 (lexicalCast_double (field fields 2))
         (lexicalCast_double (field fields 3))
         (lexicalCast_double (field fields 4)).

(** A number in a column of width 5, and one in a column of width 12 with
    six decimals. *)
Definition int_column (z : Z) : string :=
  right_justified 5 (dec_string (to_uint z)).

Definition float_column (x : Real) : string :=
  right_justified 12 (num_put_double ff_fixed 6 x).

(** A sample in a column of width 13, scientific with five decimals. *)
Definition value_column (x : float) : string :=
  right_justified 13 (num_put_float ff_scientific 5 x).

(** The samples from index [i] on, a newline after every sixth. *)
Fixpoint values_text (i : nat) (values : list float) : string :=
  match values with
  | [] => ""
  | x :: rest =>
      value_column x
      ++ (if Nat.eqb (i mod 6) 5 then nl else "")
      ++ values_text (S i) rest
  end.

Definition axis_text (i : nat) (d : Z) (s : Real) : string :=
  int_column d
  ++ float_column (if Nat.eqb i 0 then s else Real_zero)
  ++ float_column (if Nat.eqb i 1 then s else Real_zero)
  ++ float_column (if Nat.eqb i 2 then s else Real_zero)
  ++ nl.

Definition atom_text (a : Atom) : string :=
  int_column (atomicNumber a)
  ++ float_column Real_zero
  ++ float_column (Real_mul (v0 (position3d a)) ANGSTROM_TO_BOHR)
  ++ float_column (Real_mul (v1 (position3d a)) ANGSTROM_TO_BOHR)
  ++ float_column (Real_mul (v2 (position3d a)) ANGSTROM_TO_BOHR)
  ++ nl.

Definition concat_strings (l : list string) : string :=
  fold_right String.append "" l.

(** The file of a molecule and its first cube up to the samples: banner,
    name, the line of the atom count and the origin, the axis lines, the
    atom lines. *)
Definition head_text (mol : Molecule) (cube : Cube) : string :=
  banner ++ nl ++ name mol ++ nl
  ++ int_column (Z.of_nat (atomCount mol))
  ++ float_column (Real_mul (v0 (cube_min cube)) ANGSTROM_TO_BOHR)
  ++ float_column (Real_mul (v1 (cube_min cube)) ANGSTROM_TO_BOHR)
  ++ float_column (Real_mul (v2 (cube_min cube)) ANGSTROM_TO_BOHR)
  ++ int_column 1 ++ nl
  ++ axis_text 0 (v0 (cube_dimensions cube))
       (Real_mul (v0 (cube_spacing cube)) ANGSTROM_TO_BOHR)
  ++ axis_text 1 (v1 (cube_dimensions cube))
       (Real_mul (v1 (cube_spacing cube)) ANGSTROM_TO_BOHR)
  ++ axis_text 2 (v2 (cube_dimensions cube))
       (Real_mul (v2 (cube_spacing cube)) ANGSTROM_TO_BOHR)
  ++ concat_strings (map atom_text (atoms mol)).

(** The whole file of a molecule and its first cube. *)
Definition file_text (mol : Molecule) (cube : Cube) : string :=
  head_text mol cube ++ values_text 0 (cube_data cube).

Definition is_atom_call (c : call) : bool :=
  match c with
  | call_setData _ _ | call_addAtom _ | call_setPosition3d _ => true
  | _ => false
  end.

Definition is_addAtom (c : call) : bool :=
  match c with call_addAtom _ => true | _ => false end.

Definition is_cube_call (c : call) : bool :=
  match c with
  | call_addCube | call_setLimits _ | call_cube_setData _ => true
  | _ => false
  end.

Definition product (dim : Vector3i) : Z := v0 dim * v1 dim * v2 dim.

(** The fields of axis line [k] of the three that follow. *)
Definition axis_fields (k : nat) (line : string) (ins : istream) : list string :=
  nth k (field_lists 3 line ins) [].

(** The counts in field 0 of the axis lines, and the spacings in field 1 of
    the first, field 2 of the second and field 3 of the third, in the unit
    of the file. *)
Definition file_dim (line : string) (ins : istream) : Vector3i :=
  mkVec3 (lexicalCast_int (field (axis_fields 0 line ins) 0))
         (lexicalCast_int (field (axis_fields 1 line ins) 0))
         (lexicalCast_int (field (axis_fields 2 line ins) 0)).

Definition file_spacing (line : string) (ins : istream) : Vector3 :=
  mkVec3 (lexicalCast_double (field (axis_fields 0 line ins) 1))
         (lexicalCast_double (field (axis_fields 1 line ins) 2))
         (lexicalCast_double (field (axis_fields 2 line ins) 3)).

(** The atom a list of fields gives, when it has the fields. *)
Definition decoded_atom (fs : list string) : Atom :=
  mkAtom (to_uchar (lexicalCast_short (field fs 0)))
         (vscale (file_position fs) BOHR_TO_ANGSTROM).

(** A cube with the limits [read] gives it and a buffer of the size of its
    dimensions. *)
Definition cube_as_read (min : Vector3) (dim : Vector3i) (spacing : Vector3)
    (c : Cube) : Prop :=
  cube_min c = min /\ cube_dimensions c = dim /\ cube_spacing c = spacing
  /\ Z.of_nat (List.length (cube_data c)) = product dim.

(** The name line of a file. *)
Definition first_line (ins : istream) : string := fst (getline ins "").

(** The stream when the extraction of [nAtoms] begins: after the name line
    and the title line. *)
Definition header_stream (ins : istream) : istream :=
  snd (getline (snd (getline ins "")) (fst (getline ins ""))).

(** Strings made of characters of one kind. *)
Fixpoint only_chars (p : ascii -> bool) (s : string) : bool :=
  match s with
  | String c s' => (p c && only_chars p s')%bool
  | EmptyString => true
  end.

Definition space_or_digit (c : ascii) : bool :=
  (Ascii.eqb c space || is_digit c)%bool.

(** A cube as [read] leaves it when no sample could be extracted. *)
Definition zero_cube (min : Vector3) (dim : Vector3i) (spacing : Vector3) : Cube :=
  mkCube min dim spacing (repeat float_zero (Z.to_nat (product dim))).

(** The formatting state a stream is in after [writeFixedFloat]. *)
Definition fixed_state (o : ostream) : Prop :=
  width o = 0%nat /\ adjust o = adj_right
  /\ floatf o = ff_fixed /\ precision o = 6%nat.

(** The formatting state a stream is in after a sample was written. *)
Definition scientific_state (o : ostream) : Prop :=
  width o = 0%nat /\ adjust o = adj_right
  /\ floatf o = ff_scientific /\ precision o = 5%nat.

End Layout.

(* ------------------------------------------------------------------ *)
(** * Properties *)

(** ** Strings and lists *)

Local Open Scope list_scope.

Lemma append_nil_r (s : string) : (s ++ "")%string = s.
Proof. induction s as [|c s IH]; simpl; [reflexivity | now rewrite IH]. Qed.

Lemma append_assoc (a b c : string) :
  ((a ++ b) ++ c)%string = (a ++ (b ++ c))%string.
Proof. induction a as [|x a IH]; simpl; [reflexivity | now rewrite IH]. Qed.

Lemma right_justified_0 (s : string) : right_justified 0 s = s.
Proof. reflexivity. Qed.

Lemma left_justified_0 (s : string) : left_justified 0 s = s.
Proof. unfold left_justified; simpl; apply append_nil_r. Qed.

Lemma nth_error_length_app {A} (l : list A) (x : A) :
  nth_error (l ++ [x]) (List.length l) = Some x.
Proof. induction l; simpl; auto. Qed.

Lemma set_nth_length_app {A} (l : list A) (x y : A) :
  set_nth (List.length l) y (l ++ [x]) = l ++ [y].
Proof. induction l; simpl; [reflexivity | now f_equal]. Qed.

Lemma nth_error_nth_field (l : list string) (j : nat) (f : string) :
  nth_error l j = Some f -> nth j l "" = f.
Proof. intro H; now apply nth_error_nth. Qed.

Lemma cut_line_no_newline (s rest : string) :
  has_char newline s = false ->
  cut_line (s ++ String newline rest)%string = (s, rest, true).
Proof.
  induction s as [|c s IH]; intro H.
  - reflexivity.
  - cbn [has_char] in H. apply orb_false_iff in H; destruct H as [Hc Hs].
    rewrite Ascii.eqb_sym in Hc.
    cbn [append cut_line]. rewrite Hc, (IH Hs); reflexivity.
Qed.

Lemma skipws_spaces (k : nat) (s : string) :
  skipws (repeat_char space k ++ s)%string = skipws s.
Proof. induction k; simpl; auto. Qed.

(** ** Outcomes *)

Lemma bind_returned {S A B} (m : outcome S A) (k : A -> S -> outcome S B) b s :
  bind m k = Returned b s ->
  exists a s0, m = Returned a s0 /\ k a s0 = Returned b s.
Proof. destruct m; simpl; try discriminate; eauto. Qed.

Lemma returns_intro {S A} (m : outcome S A) (da : A) (ds : S) :
  returns m = true -> m = Returned (result_or da m) (state_or ds m).
Proof. destruct m; simpl; intro E; try discriminate; reflexivity. Qed.

Lemma returns_intro_pair {S T A} (m : outcome (S * T) A) (da : A) (ds : S * T) :
  returns m = true ->
  m = Returned (result_or da m) (fst (state_or ds m), snd (state_or ds m)).
Proof.
  destruct m as [a [s t]| | |]; simpl; intro E; try discriminate; reflexivity.
Qed.

Lemma returned_true {S} (m : outcome S bool) (ds : S) :
  result_or false m = true -> m = Returned true (state_or ds m).
Proof. destruct m; simpl; intro E; try discriminate; now subst. Qed.

Lemma returned_true_pair {S T} (m : outcome (S * T) bool) (ds : S * T) :
  result_or false m = true ->
  m = Returned true (fst (state_or ds m), snd (state_or ds m)).
Proof.
  destruct m as [a [s t]| | |]; simpl; intro E; try discriminate; now subst.
Qed.

Lemma thrown_pair {S T A} (m : outcome (S * T) A) (ds : S * T) :
  throws m = true ->
  m = Thrown length_error (fst (state_or ds m), snd (state_or ds m)).
Proof.
  destruct m as [|[] [s t]| |]; simpl; intro E; try discriminate; reflexivity.
Qed.

Section Properties.

Context {NU : Numerics} {CU : CoreUtilities}.

(** ** The molecule under the calls of [read] *)

Lemma add_and_place_atom (a : Atom) (m : Molecule) :
  let m2 := setPosition3d (atomCount m) (position3d a)
              (snd (addAtom (atomicNumber a) m)) in
  name m2 = name m /\ cubes m2 = cubes m
  /\ atoms m2 = atoms m ++ [a]
  /\ history m2 = history m
                  ++ [call_addAtom (atomicNumber a);
                      call_setPosition3d (atomCount m)].
Proof.
  unfold addAtom, setPosition3d, atomCount, logged; simpl.
  rewrite nth_error_length_app; simpl.
  rewrite set_nth_length_app, <- app_assoc; destruct a; simpl; auto.
Qed.

Lemma update_last_cube (l : list Cube) (c : Cube) (f : Cube -> Cube) (m : Molecule) :
  cubes m = l ++ [c] ->
  update_cube (List.length l) f m = l ++ [f c].
Proof.
  intro E; unfold update_cube; rewrite E, nth_error_length_app.
  apply set_nth_length_app.
Qed.

(** ** The geometry block *)

Lemma atom_of_fields_eq (fs : list string) (a : Atom) :
  atom_of_fields fs = Some a ->
  a = mkAtom (to_uchar (lexicalCast_short (field fs 0)))
             (vscale (file_position fs) BOHR_TO_ANGSTROM).
Proof.
  unfold atom_of_fields, file_position, field.
  destruct (nth_error fs 0) eqn:E0; [|discriminate].
  destruct (nth_error fs 2) eqn:E2; [|discriminate].
  destruct (nth_error fs 3) eqn:E3; [|discriminate].
  destruct (nth_error fs 4) eqn:E4; [|discriminate].
  intro H; injection H as <-.
  now rewrite (nth_error_nth_field _ _ _ E0), (nth_error_nth_field _ _ _ E2),
    (nth_error_nth_field _ _ _ E3), (nth_error_nth_field _ _ _ E4).
Qed.

Lemma read_geometry_final (n : nat) : forall line ins mol s,
  final_state (read_geometry n line ins mol) = Some s ->
  exists line', read_geometry n line ins mol = Returned line' s.
Proof.
  induction n as [|n IH]; simpl; intros line ins mol s H.
  - injection H as <-; eauto.
  - destruct (getline ins line) as [l1 ins1].
    destruct (atom_of_fields _); [|discriminate].
    now apply IH.
Qed.

Lemma read_geometry_returned (n : nat) : forall line ins mol line' ins' mol',
  read_geometry n line ins mol = Returned line' (ins', mol') ->
  name mol' = name mol /\ cubes mol' = cubes mol
  /\ atoms mol' = atoms mol ++ map decoded_atom (field_lists n line ins)
  /\ exists h, history mol' = history mol ++ h
               /\ forallb is_atom_call h = true
               /\ List.length (filter is_addAtom h) = n.
Proof.
  induction n as [|n IH]; simpl; intros line ins mol line' ins' mol' H.
  - injection H as <- <- <-. repeat split; try now rewrite app_nil_r.
    exists []; rewrite app_nil_r; auto.
  - destruct (getline ins line) as [l1 ins1].
    destruct (atom_of_fields _) as [a|] eqn:Ea; [|discriminate].
    set (m2 := setPosition3d _ _ _) in H.
    assert (P : name m2 = name mol /\ cubes m2 = cubes mol
                /\ atoms m2 = atoms mol ++ [a]
                /\ history m2 = history mol
                     ++ [call_addAtom (atomicNumber a);
                         call_setPosition3d (atomCount mol)])
      by exact (add_and_place_atom a mol).
    destruct P as (Pn & Pc & Pa & Ph).
    apply IH in H; destruct H as (Hn & Hc & Ha & hs & Hh & Hf & Hl).
    rewrite Hn, Hc, Ha, Hh, Pn, Pc, Pa, Ph.
    apply atom_of_fields_eq in Ea; subst a.
    repeat split; try now rewrite <- app_assoc.
    eexists; split; [rewrite <- app_assoc; reflexivity|].
    simpl; split; [assumption | now rewrite Hl].
Qed.

(** ** The cube block *)

Lemma read_values_length (n : nat) : forall ins,
  List.length (fst (read_values n ins)) = n.
Proof.
  induction n as [|n IH]; simpl; intro ins; [reflexivity|].
  destruct (extract_float ins float_zero) as [v ins1].
  specialize (IH ins1); destruct (read_values n ins1); simpl in *; now rewrite IH.
Qed.

Lemma read_cubes_final (n : nat) min dim spacing : forall line ins mol ins' mol',
  final_state (read_cubes n min dim spacing line ins mol) = Some (ins', mol') ->
  name mol' = name mol /\ atoms mol' = atoms mol
  /\ exists h, history mol' = history mol ++ h /\ forallb is_cube_call h = true.
Proof.
  induction n as [|n IH]; simpl; intros line ins mol ins' mol' H.
  - injection H as <- <-. repeat split. exists []; now rewrite app_nil_r.
  - destruct (in_int (v0 dim * v1 dim)); simpl in H; [|discriminate].
    destruct (in_int (v0 dim * v1 dim * v2 dim)); simpl in H; [|discriminate].
    destruct (v0 dim * v1 dim * v2 dim <? 0).
    + simpl in H; injection H as <- <-; simpl. repeat split.
      unfold logged; simpl. eexists; split; [rewrite <- app_assoc; reflexivity|].
      reflexivity.
    + destruct (read_values _ ins) as [vs ins1].
      destruct (getline ins1 line) as [l1 ins2].
      apply IH in H; destruct H as (Hn & Ha & h & Hh & Hf).
      unfold cube_setData, setLimits, logged in Hn, Ha, Hh; simpl in Hn, Ha, Hh.
      rewrite Hn, Ha, Hh. repeat split.
      eexists; split.
      * rewrite <- !app_assoc; reflexivity.
      * simpl; assumption.
Qed.

Lemma read_cubes_returned (n : nat) min dim spacing :
  forall line ins mol line' ins' mol',
  read_cubes n min dim spacing line ins mol = Returned line' (ins', mol') ->
  exists news, cubes mol' = cubes mol ++ news
               /\ List.length news = n
               /\ Forall (cube_as_read min dim spacing) news.
Proof.
  induction n as [|n IH]; simpl; intros line ins mol line' ins' mol' H.
  - injection H as <- <- <-. exists []; rewrite app_nil_r; auto.
  - destruct (in_int (v0 dim * v1 dim)); simpl in H; [|discriminate].
    destruct (in_int (v0 dim * v1 dim * v2 dim)); simpl in H; [|discriminate].
    destruct (v0 dim * v1 dim * v2 dim <? 0) eqn:Hneg; [discriminate|].
    pose proof (read_values_length (Z.to_nat (v0 dim * v1 dim * v2 dim)) ins) as L.
    destruct (read_values _ ins) as [vs ins1]; simpl in L.
    destruct (getline ins1 line) as [l1 ins2].
    apply IH in H; destruct H as (news & Hc & Hl & Hf).
    simpl in Hc. unfold cubeCount in Hc.
    erewrite update_last_cube in Hc;
      [|simpl; erewrite update_last_cube; [reflexivity | reflexivity]].
    simpl in Hc. eexists (_ :: news); split; [|split].
    + rewrite Hc, <- app_assoc; reflexivity.
    + simpl; now rewrite Hl.
    + constructor; [|assumption].
      unfold cube_as_read, product; simpl; repeat split.
      rewrite L. apply Z.ltb_ge in Hneg. lia.
Qed.

(** ** The header and the axis block *)

Lemma read_header_molecule (ins : istream) (mol : Molecule) :
  read_header ins mol =
  (let '(line, nAtoms, min, ins', _) := read_header ins empty_molecule in
   (line, nAtoms, min, ins', setData_name (first_line ins) mol)).
Proof.
  unfold read_header, first_line.
  destruct (getline ins "") as [l0 i0]; simpl.
  destruct (getline i0 l0) as [l1 i1].
  destruct (formatted_input (fresh get_int) i1 None) as [n i2].
  destruct (formatted_input (fresh num_get_double) i2 None) as [a i3].
  destruct (formatted_input (fresh num_get_double) i3 None) as [b i4].
  destruct (formatted_input (fresh num_get_double) i4 None) as [c i5].
  destruct (getline i5 l1); reflexivity.
Qed.

Lemma field_lists_S (n : nat) (line : string) (ins : istream) :
  field_lists (S n) line ins
  = split (trimmed (fst (getline ins line))) space
    :: field_lists n (trimmed (fst (getline ins line))) (snd (getline ins line)).
Proof. simpl; destruct (getline ins line); reflexivity. Qed.

Lemma nth_error_present {A} (l : list A) (j : nat) :
  (j < List.length l)%nat -> exists x, nth_error l j = Some x.
Proof.
  intro L. destruct (nth_error l j) eqn:E; [eauto|].
  apply nth_error_None in E; lia.
Qed.

(** One round of the axis loop reads field 0 and field [i + 1] of its line
    and needs no other. *)
Lemma read_axis_fields (i : nat) (line : string) (ins : istream) :
  let fs := split (trimmed (fst (getline ins line))) space in
  (forall r, read_axis i line ins = Some r ->
     r = (lexicalCast_int (field fs 0), lexicalCast_double (field fs (i + 1)),
          trimmed (fst (getline ins line)), snd (getline ins line)))
  /\ ((i + 1 < List.length fs)%nat -> read_axis i line ins <> None).
Proof.
  unfold read_axis, field. destruct (getline ins line) as [l0 i0]; cbn [fst snd].
  split.
  - intros r.
    destruct (nth_error _ 0) eqn:A0; [|discriminate].
    destruct (nth_error _ (i + 1)) eqn:B0; [|discriminate].
    intro E; injection E as <-.
    now rewrite (nth_error_nth_field _ _ _ A0), (nth_error_nth_field _ _ _ B0).
  - intro L.
    destruct (nth_error_present (split (trimmed l0) space) 0 ltac:(lia)) as [a ->].
    destruct (nth_error_present _ _ L) as [b ->]. discriminate.
Qed.

Lemma read_axes_fields (line : string) (ins : istream) dim sp line' ins' :
  read_axes line ins = Some (dim, sp, line', ins') ->
  dim = file_dim line ins /\ sp = file_spacing line ins.
Proof.
  unfold read_axes, file_dim, file_spacing, axis_fields.
  rewrite !field_lists_S. cbn [nth].
  destruct (read_axis_fields 0 line ins) as [R0 _].
  destruct (read_axis 0 line ins) as [[[[d0 s0] l0] i0]|]; [|discriminate].
  specialize (R0 _ eq_refl); injection R0 as -> -> -> ->.
  destruct (read_axis_fields 1 (trimmed (fst (getline ins line)))
              (snd (getline ins line))) as [R1 _].
  destruct (read_axis 1 _ _) as [[[[d1 s1] l1] i1]|]; [|discriminate].
  specialize (R1 _ eq_refl); injection R1 as -> -> -> ->.
  match goal with |- context [read_axis 2 ?l ?i] =>
    destruct (read_axis_fields 2 l i) as [R2 _] end.
  destruct (read_axis 2 _ _) as [[[[d2 s2] l2] i2]|]; [|discriminate].
  specialize (R2 _ eq_refl); injection R2 as -> -> -> ->.
  intro E; injection E as <- <- <- <-. split; reflexivity.
Qed.

Lemma read_axes_defined (line : string) (ins : istream) :
  (1 < List.length (axis_fields 0 line ins))%nat ->
  (2 < List.length (axis_fields 1 line ins))%nat ->
  (3 < List.length (axis_fields 2 line ins))%nat ->
  exists line' ins',
    read_axes line ins
    = Some (file_dim line ins, file_spacing line ins, line', ins').
Proof.
  intros L0 L1 L2.
  destruct (read_axes line ins) as [[[[dim sp] l'] i']|] eqn:E.
  - destruct (read_axes_fields _ _ _ _ _ _ E) as [-> ->]; eauto.
  - exfalso. revert E L0 L1 L2.
    unfold read_axes, axis_fields. rewrite !field_lists_S. cbn [nth].
    destruct (read_axis_fields 0 line ins) as [R0 D0].
    destruct (read_axis 0 line ins) as [[[[d0 s0] l0] i0]|];
      [|intros _ L0 _ _; now apply D0].
    specialize (R0 _ eq_refl); injection R0 as -> -> -> ->.
    destruct (read_axis_fields 1 (trimmed (fst (getline ins line)))
                (snd (getline ins line))) as [R1 D1].
    destruct (read_axis 1 _ _) as [[[[d1 s1] l1] i1]|];
      [|intros _ _ L1 _; now apply D1].
    specialize (R1 _ eq_refl); injection R1 as -> -> -> ->.
    match goal with |- context [read_axis 2 ?l ?i] =>
      destruct (read_axis_fields 2 l i) as [R2 D2] end.
    destruct (read_axis 2 _ _) as [[[[d2 s2] l2] i2]|];
      [discriminate | intros _ _ _ L2; now apply D2].
Qed.

(** ** The phases of [read] *)

Lemma read_body_phases (ins : istream) (mol : Molecule) (s : rstate) :
  final_state (read_body ins mol) = Some s ->
  exists nAtoms rawmin dim rawsp line1 ins1 lineg insg molg,
    header_nAtoms ins = Some nAtoms
    /\ vinit (header_min ins) = Some rawmin
    /\ read_axes (fst (axes_start ins)) (snd (axes_start ins))
       = Some (dim, rawsp, line1, ins1)
    /\ read_geometry (Z.abs_nat nAtoms) line1 ins1
         (setData_name (first_line ins) mol)
       = Returned lineg (insg, molg)
    /\ read_body ins mol
       = (let '(nCubes, linec, insc) := read_cube_count nAtoms lineg insg in
          let min := vscale rawmin BOHR_TO_ANGSTROM in
          let spacing := vscale rawsp BOHR_TO_ANGSTROM in
          bind (read_cubes (Z.to_nat nCubes) min dim spacing linec insc
                  (perceiveBondsSimple molg))
            (fun line s =>
               Returned (mkLocals nAtoms min spacing dim nCubes line) s)).
Proof.
  unfold read_body, header_nAtoms, header_min, axes_start.
  rewrite read_header_molecule.
  destruct (read_header ins empty_molecule) as [[[[line nA] min] i0] m0].
  cbn [fst snd].
  destruct (read_axes line i0) as [[[[dim sp] l1] i1]|]; [|discriminate].
  destruct nA as [nAtoms|]; [|discriminate].
  destruct (nAtoms =? INT_MIN); [discriminate|].
  destruct (read_geometry _ l1 i1 _) as [lg [ig mg]|e s0| |] eqn:G;
    cbn [bind]; try discriminate.
  - destruct (read_cube_count nAtoms lg ig) as [[nC lc] ic] eqn:C.
    destruct (vinit min) as [rawmin|]; [|discriminate].
    intros _. exists nAtoms, rawmin, dim, sp, l1, i1, lg, ig, mg.
    rewrite C. repeat split; assumption.
  - exfalso.
    destruct (read_geometry_final _ _ _ _ s0 ltac:(rewrite G; reflexivity))
      as [l' E].
    rewrite G in E; discriminate.
Qed.

Lemma read_cube_count_single (nAtoms : Z) (line : string) (ins : istream) :
  0 <= nAtoms -> read_cube_count nAtoms line ins = (1, line, ins).
Proof.
  intro P; unfold read_cube_count.
  destruct (nAtoms <? 0) eqn:E; [apply Z.ltb_lt in E; lia | reflexivity].
Qed.

Lemma read_final_state (ins : istream) (mol : Molecule) :
  final_state (read ins mol) = final_state (read_body ins mol).
Proof. unfold read; destruct (read_body ins mol); reflexivity. Qed.

Lemma state_or_read (d : rstate) (ins : istream) (mol : Molecule) :
  state_or d (read ins mol) = state_or d (read_body ins mol).
Proof. unfold read; destruct (read_body ins mol); reflexivity. Qed.

Lemma read_returned (ins : istream) (mol : Molecule) (b : bool) (s : rstate) :
  read ins mol = Returned b s ->
  b = true /\ exists l, read_body ins mol = Returned l s.
Proof.
  unfold read; intro R. apply bind_returned in R.
  destruct R as (l & s0 & B & E). injection E as <- <-. eauto.
Qed.

(** What a run of [read] that reaches its [return] has done. *)
Lemma read_body_returned (ins : istream) (mol : Molecule) l ins' mol' :
  read_body ins mol = Returned l (ins', mol') ->
  header_nAtoms ins = Some (l_nAtoms l)
  /\ (exists rawmin, vinit (header_min ins) = Some rawmin
                     /\ l_min l = vscale rawmin BOHR_TO_ANGSTROM)
  /\ l_dim l = file_dim (fst (axes_start ins)) (snd (axes_start ins))
  /\ l_spacing l
     = vscale (file_spacing (fst (axes_start ins)) (snd (axes_start ins)))
         BOHR_TO_ANGSTROM
  /\ (0 <= l_nAtoms l -> l_nCubes l = 1)
  /\ name mol' = first_line ins
  /\ (exists lineg insg,
        geometry_start ins = Some (lineg, insg)
        /\ atoms mol'
           = atoms mol
             ++ map decoded_atom
                  (field_lists (Z.abs_nat (l_nAtoms l)) lineg insg))
  /\ (exists news,
        cubes mol' = cubes mol ++ news
        /\ List.length news = Z.to_nat (l_nCubes l)
        /\ Forall (cube_as_read (l_min l) (l_dim l) (l_spacing l)) news).
Proof.
  intro R.
  destruct (read_body_phases ins mol (ins', mol') ltac:(rewrite R; reflexivity))
    as (nAtoms & rawmin & dim & rawsp & line1 & ins1 & lineg & insg & molg
        & Hn & Hm & Ha & Hg & E).
  rewrite E in R.
  destruct (read_cube_count nAtoms lineg insg) as [[nC lc] ic] eqn:C.
  cbv zeta in R. apply bind_returned in R.
  destruct R as (line' & s0 & Rc & Rl). injection Rl as <- ->.
  cbn [l_nAtoms l_min l_dim l_spacing l_nCubes].
  destruct (read_axes_fields _ _ _ _ _ _ Ha) as [-> ->].
  destruct (read_geometry_returned _ _ _ _ _ _ _ Hg) as (Gn & Gc & Ga & _).
  destruct (read_cubes_final _ _ _ _ _ _ _ ins' mol'
              ltac:(rewrite Rc; reflexivity)) as (Cn & Ca & _).
  destruct (read_cubes_returned _ _ _ _ _ _ _ _ _ _ Rc) as (news & Nc & Nl & Nf).
  cbn [perceiveBondsSimple name atoms cubes] in Cn, Ca, Nc.
  repeat split.
  - assumption.
  - eauto.
  - intro P. rewrite (read_cube_count_single _ _ _ P) in C. now injection C.
  - rewrite Cn, Gn. reflexivity.
  - exists line1, ins1. split.
    + unfold geometry_start. destruct (axes_start ins) as [l0 i0].
      cbn [fst snd] in Ha. now rewrite Ha.
    + now rewrite Ca, Ga.
  - exists news. rewrite Nc, Gc. auto.
Qed.

(** The calls made on the molecule by a run of [read] that returns or
    throws. *)
Lemma read_body_history (ins : istream) (mol : Molecule) ins' mol' :
  final_state (read_body ins mol) = Some (ins', mol') ->
  exists nAtoms before after,
    header_nAtoms ins = Some nAtoms
    /\ history mol'
       = history mol ++ before ++ [call_perceiveBondsSimple] ++ after
    /\ forallb is_atom_call before = true
    /\ List.length (filter is_addAtom before) = Z.abs_nat nAtoms
    /\ forallb is_cube_call after = true.
Proof.
  intro F.
  destruct (read_body_phases ins mol _ F)
    as (nAtoms & rawmin & dim & rawsp & line1 & ins1 & lineg & insg & molg
        & Hn & Hm & Ha & Hg & E).
  rewrite E in F.
  destruct (read_cube_count nAtoms lineg insg) as [[nC lc] ic].
  cbv zeta in F.
  assert (F' : final_state
                 (read_cubes (Z.to_nat nC) (vscale rawmin BOHR_TO_ANGSTROM) dim
                    (vscale rawsp BOHR_TO_ANGSTROM) lc ic
                    (perceiveBondsSimple molg)) = Some (ins', mol'))
    by (destruct (read_cubes _ _ _ _ _ _ _); assumption).
  destruct (read_geometry_returned _ _ _ _ _ _ _ Hg)
    as (_ & _ & _ & h & Gh & Gf & Gl).
  destruct (read_cubes_final _ _ _ _ _ _ _ _ _ F') as (_ & _ & h' & Ch & Cf).
  cbn [perceiveBondsSimple history setData_name] in Ch, Gh.
  unfold logged in Ch, Gh.
  exists nAtoms, (call_setData "name" (first_line ins) :: h), h'.
  repeat split; try assumption.
  rewrite Ch, Gh. rewrite <- !app_assoc. reflexivity.
Qed.

(** ** Claims on [read] *)

(** C1 (as amended).  [read] has no failure return: whenever it returns, it
    returns [true], whatever the tokens of the input were and wherever the
    stream ended. *)
Theorem read_has_no_failure_return (ins : istream) (mol : Molecule)
    (b : bool) (s : rstate) :
  read ins mol = Returned b s -> b = true.
Proof. intro R; now apply read_returned in R. Qed.


(** C4 (as amended).  [read] does not check the dimensions: whenever it
    returns, it returns [true], and every cube it added carries the counts of
    field 0 of the three axis lines as they are, with a buffer of exactly
    [dim.x * dim.y * dim.z] samples. *)
Theorem read_keeps_any_dimensions (ins : istream) (mol : Molecule)
    (b : bool) ins' mol' :
  read ins mol = Returned b (ins', mol') ->
  b = true
  /\ exists news,
       cubes mol' = cubes mol ++ news
       /\ Forall (fun c =>
            cube_dimensions c
            = file_dim (fst (axes_start ins)) (snd (axes_start ins))
            /\ Z.of_nat (List.length (cube_data c))
               = product (cube_dimensions c)) news.
Proof.
  intro R. apply read_returned in R; destruct R as (-> & l & B).
  split; [reflexivity|].
  destruct (read_body_returned _ _ _ _ _ B)
    as (_ & _ & Hd & _ & _ & _ & _ & (news & Hc & _ & Hf)).
  exists news; split; [assumption|].
  eapply Forall_impl; [|exact Hf].
  intros c (_ & Dc & _ & Lc). rewrite Dc, <- Hd. auto.
Qed.

(** C6.  The loop over the axis lines takes the count of axis [i] from
    field 0 and its spacing from field [i + 1] of line [i], trimmed and
    split; it succeeds as soon as these fields are there, whatever the
    other fields hold, and a returning [read] carries these counts and
    these spacings. *)
Theorem axis_lines_diagonal_only :
  (forall line ins,
     (1 < List.length (axis_fields 0 line ins))%nat ->
     (2 < List.length (axis_fields 1 line ins))%nat ->
     (3 < List.length (axis_fields 2 line ins))%nat ->
     exists line' ins',
       read_axes line ins
       = Some (file_dim line ins, file_spacing line ins, line', ins'))
  /\ (forall ins mol l s,
        read_body ins mol = Returned l s ->
        l_dim l = file_dim (fst (axes_start ins)) (snd (axes_start ins))
        /\ l_spacing l
           = vscale (file_spacing (fst (axes_start ins)) (snd (axes_start ins)))
               BOHR_TO_ANGSTROM).
Proof.
  split.
  - apply read_axes_defined.
  - intros ins mol l [ins' mol'] B.
    destruct (read_body_returned _ _ _ _ _ B) as (_ & _ & Hd & Hs & _).
    auto.
Qed.

(** C9.  In every run of [read] that returns or throws, the molecule
    receives [perceiveBondsSimple] exactly once; before it come the
    [abs(nAtoms)] calls of [addAtom] with their positions, after it every
    call that creates or fills a cube. *)
Theorem perceive_bonds_once_between_atoms_and_cubes
    (ins : istream) (mol : Molecule) ins' mol' :
  final_state (read ins mol) = Some (ins', mol') ->
  exists nAtoms before after,
    header_nAtoms ins = Some nAtoms
    /\ history mol'
       = history mol ++ before ++ [call_perceiveBondsSimple] ++ after
    /\ forallb is_atom_call before = true
    /\ List.length (filter is_addAtom before) = Z.abs_nat nAtoms
    /\ forallb is_cube_call after = true.
Proof. rewrite read_final_state. apply read_body_history. Qed.

(** ** The output stream under the calls of [write] *)

Lemma put_string_text (s : string) (o : ostream) :
  width o = 0%nat -> text (put_string s o) = (text o ++ s)%string.
Proof.
  unfold put_string, put_field; intros ->; simpl.
  destruct (adjust o); now rewrite ?left_justified_0, ?right_justified_0.
Qed.

Lemma put_string_width (s : string) (o : ostream) :
  width (put_string s o) = 0%nat.
Proof. reflexivity. Qed.

Lemma writeFixedInt_text (o : ostream) (z : Z) :
  text (writeFixedInt o z) = (text o ++ int_column z)%string
  /\ width (writeFixedInt o z) = 0%nat.
Proof. split; reflexivity. Qed.

Lemma writeFixedFloat_text (o : ostream) (x : Real) :
  text (writeFixedFloat o x) = (text o ++ float_column x)%string
  /\ width (writeFixedFloat o x) = 0%nat.
Proof. split; reflexivity. Qed.

Lemma write_axis_text (i : nat) (d : Z) (s : Real) (o : ostream) :
  text (write_axis i d s o) = (text o ++ axis_text i d s)%string
  /\ width (write_axis i d s o) = 0%nat.
Proof.
  split; [|reflexivity]. unfold write_axis, axis_text.
  rewrite put_string_text by reflexivity.
  cbn [writeFixedFloat writeFixedInt put_double put_uint put_field text
       setprecision set_right set_fixed setw adjust width floatf precision].
  fold (float_column (if Nat.eqb i 0 then s else Real_zero)).
  fold (float_column (if Nat.eqb i 1 then s else Real_zero)).
  fold (float_column (if Nat.eqb i 2 then s else Real_zero)).
  fold (int_column d).
  now rewrite !append_assoc.
Qed.

Lemma write_atom_text (a : Atom) (o : ostream) :
  text (write_atom a o) = (text o ++ atom_text a)%string
  /\ width (write_atom a o) = 0%nat.
Proof.
  split; [|reflexivity]. unfold write_atom, atom_text.
  rewrite put_string_text by reflexivity.
  cbn [writeFixedFloat writeFixedInt put_double put_uint put_field text
       setprecision set_right set_fixed setw adjust width floatf precision].
  fold (float_column Real_zero).
  fold (float_column (Real_mul (v0 (position3d a)) ANGSTROM_TO_BOHR)).
  fold (float_column (Real_mul (v1 (position3d a)) ANGSTROM_TO_BOHR)).
  fold (float_column (Real_mul (v2 (position3d a)) ANGSTROM_TO_BOHR)).
  fold (int_column (atomicNumber a)).
  now rewrite !append_assoc.
Qed.

(** The atom loop from index [i] writes the atoms from [i] on and meets no
    invalid handle while it stays below the atom count. *)
Lemma write_atoms_text (mol : Molecule) (n : nat) : forall i o,
  (i + n <= atomCount mol)%nat ->
  exists o',
    write_atoms n i mol o = (true, o')
    /\ text o'
       = (text o
          ++ concat_strings (map atom_text (firstn n (skipn i (atoms mol)))))%string
    /\ (width o = 0%nat -> width o' = 0%nat).
Proof.
  unfold atomCount.
  induction n as [|n IH]; intros i o L; simpl.
  - exists o. rewrite append_nil_r. auto.
  - destruct (nth_error_present (atoms mol) i ltac:(lia)) as [a Ea].
    rewrite Ea.
    destruct (IH (S i) (write_atom a o) ltac:(lia)) as (o' & W & T & Wd).
    exists o'. split; [assumption|]. split.
    + rewrite T. destruct (write_atom_text a o) as [-> _].
      rewrite append_assoc. f_equal.
      assert (S : skipn i (atoms mol) = a :: skipn (S i) (atoms mol)).
      { clear -Ea. revert i Ea. induction (atoms mol) as [|x l IHl];
          intros [|i] E; simpl in *; try discriminate.
        - now injection E as ->.
        - now apply IHl. }
      rewrite S. reflexivity.
    + intros _. apply Wd. reflexivity.
Qed.

Lemma newline_test (i : nat) :
  (Z.of_nat i mod 6 =? 5) = Nat.eqb (i mod 6) 5.
Proof.
  destruct (Nat.eqb (i mod 6) 5) eqn:E.
  - apply Nat.eqb_eq in E. apply Z.eqb_eq.
    change 6 with (Z.of_nat 6). rewrite <- Nat2Z.inj_mod, E. reflexivity.
  - apply Nat.eqb_neq in E. apply Z.eqb_neq.
    change 6 with (Z.of_nat 6). rewrite <- Nat2Z.inj_mod. lia.
Qed.

(** The value loop writes each sample in its column and a newline where
    the index says so, whatever the state of the stream before. *)
Lemma write_values_text (values : list float) : forall i o,
  text (write_values values (Z.of_nat i) o)
  = (text o ++ values_text i values)%string.
Proof.
  induction values as [|x rest IH]; intros i o.
  - simpl. now rewrite append_nil_r.
  - cbn [write_values values_text].
    rewrite newline_test.
    replace (Z.of_nat i + 1) with (Z.of_nat (S i)) by lia.
    rewrite IH.
    destruct (Nat.eqb (i mod 6) 5).
    + rewrite put_string_text by reflexivity.
      cbn [put_float put_field text setprecision set_scientific set_right setw
           adjust width floatf precision].
      fold (value_column x). now rewrite !append_assoc.
    + cbn [put_float put_field text setprecision set_scientific set_right setw
           adjust width floatf precision].
      fold (value_column x). now rewrite !append_assoc.
Qed.

Lemma values_text_app (vs : list float) (x : float) : forall i,
  values_text i (vs ++ [x])
  = (values_text i vs ++ value_column x
     ++ (if Nat.eqb ((i + List.length vs) mod 6) 5 then nl else ""))%string.
Proof.
  induction vs as [|y vs IH]; intro i; simpl.
  - rewrite Nat.add_0_r. now rewrite append_nil_r.
  - rewrite IH. rewrite !append_assoc.
    replace (S i + List.length vs)%nat with (i + S (List.length vs))%nat by lia.
    reflexivity.
Qed.

Lemma length_0_empty (s : string) : String.length s = 0%nat -> s = "".
Proof. destruct s; [reflexivity | discriminate]. Qed.

(** [write] on a molecule with a cube: the stream [head] on which the value
    loop starts, and whether the loop ends. *)
Lemma write_with_cube (out : ostream) (mol : Molecule) (cube : Cube) rest :
  cubes mol = cube :: rest ->
  exists head,
    write out mol
    = (if UINT_MAX <? Z.of_nat (List.length (cube_data cube)) then Diverges
       else Returned true (write_values (cube_data cube) 0 head))
    /\ (width out = 0%nat ->
        text head = (text out ++ head_text mol cube)%string).
Proof.
  intro E. unfold write. rewrite E.
  match goal with |- context [write_atoms _ 0 mol ?o] => set (o3 := o) end.
  destruct (write_atoms_text mol (atomCount mol) 0 o3 ltac:(lia))
    as (head & W & T & _).
  rewrite W. exists head. split; [reflexivity|].
  intro W0. rewrite T. cbn [skipn]. unfold atomCount at 1. rewrite firstn_all.
  unfold head_text. rewrite <- !append_assoc. f_equal.
  subst o3.
  rewrite !(proj1 (write_axis_text _ _ _ _)).
  rewrite put_string_text by reflexivity.
  rewrite (proj1 (writeFixedInt_text _ _)).
  rewrite !(proj1 (writeFixedFloat_text _ _)).
  rewrite (proj1 (writeFixedInt_text _ _)).
  cbn [vscale vmap v0 v1 v2].
  assert (N : text (if Nat.eqb (String.length (name mol)) 0
                    then put_string nl (put_string (banner ++ nl) out)
                    else put_string nl
                           (put_string (name mol)
                              (put_string (banner ++ nl) out)))
              = (text out ++ banner ++ nl ++ name mol ++ nl)%string).
  { destruct (Nat.eqb (String.length (name mol)) 0) eqn:L.
    - apply Nat.eqb_eq, length_0_empty in L. rewrite L.
      rewrite !put_string_text by (assumption || reflexivity).
      now rewrite !append_assoc.
    - rewrite !put_string_text by (assumption || reflexivity).
      now rewrite !append_assoc. }
  rewrite N. now rewrite !append_assoc.
Qed.

(** ** Claims on [write] *)

(** C3.  [write] on a molecule without cubes returns [false] and leaves the
    stream as it was: nothing has been written. *)
Theorem write_without_cube_writes_nothing (out : ostream) (mol : Molecule) :
  cubeCount mol = 0%nat -> write out mol = Returned false out.
Proof.
  unfold cubeCount, write. destruct (cubes mol); [reflexivity | discriminate].
Qed.

(** C8.  On a molecule with a cube whose buffer the [unsigned int] counter
    can index, [write] returns [true] and ends by the value loop, which adds
    to the text the samples in buffer order, each right-justified in a
    column of 13 in scientific notation with 5 decimals, a newline after
    each sample whose index is 5 modulo 6; so the text ends with the column
    of the last sample, followed by a newline only if the buffer length is
    a multiple of 6. *)
Theorem values_six_per_line (out : ostream) (mol : Molecule) (cube : Cube) rest :
  cubes mol = cube :: rest ->
  Z.of_nat (List.length (cube_data cube)) <= UINT_MAX ->
  exists head,
    write out mol = Returned true (write_values (cube_data cube) 0 head)
    /\ text (write_values (cube_data cube) 0 head)
       = (text head ++ values_text 0 (cube_data cube))%string
    /\ forall vs x,
         cube_data cube = vs ++ [x] ->
         values_text 0 (cube_data cube)
         = (values_text 0 vs
            ++ right_justified 13 (num_put_float ff_scientific 5 x)
            ++ (if Nat.eqb (List.length (cube_data cube) mod 6) 0
                then nl else ""))%string.
Proof.
  intros E L.
  destruct (write_with_cube out mol cube rest E) as (head & W & _).
  exists head. split; [|split].
  - rewrite W. destruct (UINT_MAX <? _) eqn:B; [|reflexivity].
    apply Z.ltb_lt in B. lia.
  - apply (write_values_text (cube_data cube) 0 head).
  - intros vs x D. rewrite D, values_text_app, length_app. cbn [List.length].
    unfold value_column. cbn [Nat.add].
    replace (Nat.eqb ((List.length vs + 1) mod 6) 0)
      with (Nat.eqb (List.length vs mod 6) 5); [reflexivity|].
    pose proof (Nat.div_mod_eq (List.length vs) 6) as D1.
    pose proof (Nat.div_mod_eq (List.length vs + 1) 6) as D2.
    pose proof (Nat.mod_upper_bound (List.length vs) 6 ltac:(lia)) as U1.
    pose proof (Nat.mod_upper_bound (List.length vs + 1) 6 ltac:(lia)) as U2.
    revert D1 D2 U1 U2.
    generalize (List.length vs mod 6)%nat (List.length vs / 6)%nat
      ((List.length vs + 1) mod 6)%nat ((List.length vs + 1) / 6)%nat.
    intros r1 q1 r2 q2 D1 D2 U1 U2.
    destruct (Nat.eqb r1 5) eqn:A; destruct (Nat.eqb r2 0) eqn:B;
      try reflexivity; exfalso.
    + apply Nat.eqb_eq in A; apply Nat.eqb_neq in B; lia.
    + apply Nat.eqb_neq in A; apply Nat.eqb_eq in B; lia.
Qed.

Lemma write_returned_true (out : ostream) (mol : Molecule) (out' : ostream) :
  write out mol = Returned true out' ->
  width out = 0%nat ->
  exists cube rest,
    cubes mol = cube :: rest
    /\ text out' = (text out ++ file_text mol cube)%string.
Proof.
  intros W W0. destruct (cubes mol) as [|cube rest] eqn:E.
  - unfold write in W; rewrite E in W; discriminate.
  - exists cube, rest. split; [reflexivity|].
    destruct (write_with_cube out mol cube rest E) as (head & Wh & T).
    rewrite Wh in W. destruct (UINT_MAX <? _); [discriminate|].
    injection W as <-.
    change 0 with (Z.of_nat 0).
    rewrite (write_values_text (cube_data cube) 0 head), (T W0).
    unfold file_text. now rewrite append_assoc.
Qed.

(** ** Unit conversion *)

(** C7.  A returning [read] stores every atom with the atomic number of
    field 0 unconverted and the position of fields 2 to 4 times
    BOHR_TO_ANGSTROM, and gives every cube the origin of the header times
    BOHR_TO_ANGSTROM, the diagonal spacing times BOHR_TO_ANGSTROM and the
    counts unconverted.  A returning [write] produces the text in which the
    origin, the spacing and the atom positions are multiplied by
    ANGSTROM_TO_BOHR and the atom count, the dimensions, the atomic numbers
    and the samples are written as they are. *)
Theorem unit_conversion_on_lengths_only :
  (forall ins mol ins' mol',
     read ins mol = Returned true (ins', mol') ->
     exists nAtoms rawmin lineg insg news,
       header_nAtoms ins = Some nAtoms
       /\ vinit (header_min ins) = Some rawmin
       /\ geometry_start ins = Some (lineg, insg)
       /\ atoms mol'
          = atoms mol
            ++ map (fun fs =>
                      mkAtom (to_uchar (lexicalCast_short (field fs 0)))
                        (vmap (fun c => Real_mul c BOHR_TO_ANGSTROM)
                           (file_position fs)))
                 (field_lists (Z.abs_nat nAtoms) lineg insg)
       /\ cubes mol' = cubes mol ++ news
       /\ Forall (fun c =>
            cube_min c = vmap (fun c => Real_mul c BOHR_TO_ANGSTROM) rawmin
            /\ cube_spacing c
               = vmap (fun c => Real_mul c BOHR_TO_ANGSTROM)
                   (file_spacing (fst (axes_start ins)) (snd (axes_start ins)))
            /\ cube_dimensions c
               = file_dim (fst (axes_start ins)) (snd (axes_start ins))) news)
  /\ (forall out mol out',
        width out = 0%nat ->
        write out mol = Returned true out' ->
        exists cube rest,
          cubes mol = cube :: rest
          /\ text out' = (text out ++ file_text mol cube)%string).
Proof.
  split.
  - intros ins mol ins' mol' R.
    apply read_returned in R; destruct R as (_ & l & B).
    destruct (read_body_returned _ _ _ _ _ B)
      as (Hn & (rawmin & Hm & Lm) & Hd & Hs & _ & _
          & (lg & ig & Hg & Ha) & (news & Hc & _ & Hf)).
    exists (l_nAtoms l), rawmin, lg, ig, news.
    repeat split; try assumption.
    eapply Forall_impl; [|exact Hf].
    intros c (Cm & Cd & Cs & _). rewrite Cm, Cd, Cs, Lm, Hs, Hd. auto.
  - intros out mol out' W0 W. now apply write_returned_true.
Qed.

(** ** Decoding what [write] wrote *)

Lemma digit_facts (c : ascii) :
  is_digit c = true ->
  isspace c = false /\ Ascii.eqb c "-" = false /\ Ascii.eqb c "+" = false
  /\ exists d, digit_of c = Some d /\ 0 <= d.
Proof.
  intro D. repeat split.
  - revert D. destruct c as [[] [] [] [] [] [] [] []]; vm_compute; congruence.
  - revert D. destruct c as [[] [] [] [] [] [] [] []]; vm_compute; congruence.
  - revert D. destruct c as [[] [] [] [] [] [] [] []]; vm_compute; congruence.
  - unfold is_digit in D. unfold digit_of in *.
    destruct (_ && _)%bool; [|discriminate].
    eexists; split; [reflexivity | apply Nat2Z.is_nonneg].
Qed.

Lemma dec_string_head (z : Z) :
  exists c s, dec_string z = String c s /\ is_digit c = true.
Proof.
  unfold dec_string. destruct (N.to_uint (Z.to_N z)); simpl; eauto.
Qed.

Lemma scan_digits_nonneg (s : string) : forall acc n,
  0 <= acc ->
  0 <= fst (fst (scan_digits s acc n))
  /\ (n <= snd (fst (scan_digits s acc n)))%nat.
Proof.
  induction s as [|c s IH]; intros acc n P; cbn [scan_digits fst snd];
    [split; lia|].
  destruct (digit_of c) as [d|] eqn:E; [|cbn [fst snd]; split; lia].
  assert (0 <= d).
  { unfold digit_of in E. destruct (_ && _)%bool; [|discriminate].
    injection E as <-; apply Nat2Z.is_nonneg. }
  destruct (IH (10 * acc + d) (S n) ltac:(lia)) as [A B]. split; [assumption|lia].
Qed.

(** A field that begins with a digit converts to a non-negative [int]. *)
Lemma get_int_digit (c : ascii) (s : string) :
  is_digit c = true -> 0 <= fst (fst (get_int (String c s))).
Proof.
  intro D. destruct (digit_facts c D) as (_ & M & P & _).
  unfold get_int, scan_integer. rewrite M, P.
  pose proof (scan_digits_nonneg (String c s) 0 0 ltac:(lia)) as [A _].
  assert (B : (1 <= snd (fst (scan_digits (String c s) 0 0)))%nat).
  { cbn [scan_digits]. destruct (digit_facts c D) as (_ & _ & _ & d & -> & Pd).
    apply (scan_digits_nonneg s (10 * 0 + d) 1). lia. }
  destruct (scan_digits (String c s) 0 0) as [[m n] r]. simpl in A, B.
  destruct (Nat.eqb n 0) eqn:N; [apply Nat.eqb_eq in N; lia|].
  destruct (m <? INT_MIN) eqn:L.
  - apply Z.ltb_lt in L. unfold INT_MIN in L. lia.
  - destruct (INT_MAX <? m); simpl; [unfold INT_MAX; lia | assumption].
Qed.

(** Extracting an [int] where a column written by [writeFixedInt] begins
    gives a non-negative value. *)
Lemma extract_int_of_column (z : Z) (rest : string) :
  exists v ins',
    formatted_input (fresh get_int)
      (mkIstream (int_column z ++ rest) false false) None
    = (Some v, ins')
    /\ 0 <= v.
Proof.
  unfold formatted_input, int_column, right_justified.
  cbn [good eofbit failbit orb negb buf].
  rewrite append_assoc, skipws_spaces.
  destruct (dec_string_head (to_uint z)) as (c & s & -> & D).
  cbn [append skipws]. destruct (digit_facts c D) as (-> & _).
  pose proof (get_int_digit c (s ++ rest) D) as P.
  unfold fresh. destruct (get_int (String c (s ++ rest))) as [[x ok] r].
  simpl in P. eauto.
Qed.

Lemma banner_line (rest : string) :
  cut_line (banner ++ String newline rest) = (banner, rest, true).
Proof. apply cut_line_no_newline. reflexivity. Qed.

(** The header of a text that begins like a file [write] wrote. *)
Lemma header_of_written (nm : string) (z : Z) (rest : string) :
  let file := (banner ++ nl ++ nm ++ nl ++ int_column z ++ rest)%string in
  first_line (istream_of file) = banner
  /\ (has_char newline nm = false ->
      exists v, header_nAtoms (istream_of file) = Some v /\ 0 <= v).
Proof.
  cbv zeta. unfold nl. cbn [append].
  split.
  - unfold first_line, getline, istream_of.
    cbn [good eofbit failbit orb negb buf]. now rewrite banner_line.
  - intro N. unfold header_nAtoms, read_header, getline, istream_of.
    cbn [good eofbit failbit orb negb buf]. rewrite banner_line.
    cbn [good eofbit failbit orb negb buf].
    rewrite (cut_line_no_newline nm _ N).
    destruct (extract_int_of_column z rest) as (v & ins' & -> & P).
    destruct (formatted_input (fresh num_get_double) ins' None) as [a i3].
    destruct (formatted_input (fresh num_get_double) i3 None) as [b i4].
    destruct (formatted_input (fresh num_get_double) i4 None) as [c i5].
    destruct (good i5); [destruct (cut_line (buf i5)) as [[? ?] []]|]; eauto.
Qed.


Lemma file_text_shape (mol : Molecule) (cube : Cube) :
  exists rest,
    file_text mol cube
    = (banner ++ nl ++ name mol ++ nl
       ++ int_column (Z.of_nat (atomCount mol)) ++ rest)%string.
Proof.
  unfold file_text, head_text. eexists. rewrite !append_assoc. reflexivity.
Qed.

Lemma field_lists_length (n : nat) : forall line ins,
  List.length (field_lists n line ins) = n.
Proof.
  induction n as [|n IH]; intros line ins; simpl; [reflexivity|].
  destruct (getline ins line); simpl; now rewrite IH.
Qed.

(** The counts of a returning [read], from what the header left. *)
Lemma read_counts (ins : istream) (mol : Molecule) ins' mol' :
  read ins mol = Returned true (ins', mol') ->
  exists nAtoms nCubes,
    header_nAtoms ins = Some nAtoms
    /\ atomCount mol' = (atomCount mol + Z.abs_nat nAtoms)%nat
    /\ cubeCount mol' = (cubeCount mol + Z.to_nat nCubes)%nat
    /\ (0 <= nAtoms -> nCubes = 1).
Proof.
  intro R. apply read_returned in R; destruct R as (_ & l & B).
  destruct (read_body_returned _ _ _ _ _ B)
    as (Hn & _ & _ & _ & H1 & _ & (lg & ig & _ & Ha) & (news & Hc & Hl & _)).
  exists (l_nAtoms l), (l_nCubes l). unfold atomCount, cubeCount.
  rewrite Ha, Hc, !length_app, length_map, field_lists_length, Hl. auto.
Qed.

(** ** Claims on [write] followed by [read] *)

(** C10 (as amended).  For a molecule whose name has no line break, the
    text of a successful [write] begins with the banner line and the name
    line and goes on with the atom count in its column of 5; [read] takes
    from it an [nAtoms] that is not negative, and whenever [read] of this
    text returns, it has added exactly one cube. *)
Theorem written_atom_count_not_negative (mol : Molecule) (out' : ostream) :
  has_char newline (name mol) = false ->
  write ostream_new mol = Returned true out' ->
  (exists rest,
     text out'
     = (banner ++ nl ++ name mol ++ nl
        ++ int_column (Z.of_nat (atomCount mol)) ++ rest)%string)
  /\ (exists v, header_nAtoms (istream_of (text out')) = Some v /\ 0 <= v)
  /\ (forall m0 ins' m',
        read (istream_of (text out')) m0 = Returned true (ins', m') ->
        cubeCount m' = (cubeCount m0 + 1)%nat).
Proof.
  intros N W.
  destruct (write_returned_true _ _ _ W eq_refl) as (cube & rest & _ & T).
  destruct (file_text_shape mol cube) as (body & S).
  cbn [ostream_new text append] in T. rewrite S in T.
  destruct (header_of_written (name mol) (Z.of_nat (atomCount mol)) body)
    as [_ Hh].
  destruct (Hh N) as (v & Hv & Pv). rewrite <- T in Hv.
  split; [eauto|]. split; [eauto|].
  intros m0 ins' m' R.
  destruct (read_counts _ _ _ _ R) as (n & c & Hn & _ & Hc & H1).
  rewrite Hv in Hn; injection Hn as ->.
  now rewrite (H1 Pv) in Hc.
Qed.


End Properties.


(* ------------------------------------------------------------------ *)
(** * Further properties of the codec *)

(** ** Decimal digits *)

Lemma scan_digits_stop (r : string) (acc : Z) (n : nat) :
  match r with String c _ => is_digit c = false | EmptyString => True end ->
  scan_digits r acc n = (acc, n, r).
Proof.
  destruct r as [|c r]; [reflexivity|].
  unfold is_digit; simpl. destruct (digit_of c); [discriminate | reflexivity].
Qed.

(** Scanning the digits of a decimal numeral continues the accumulator as
    [Pos.of_uint_acc] does. *)
Lemma scan_digits_acc (d : Decimal.uint) (r : string) :
  match r with String c _ => is_digit c = false | EmptyString => True end ->
  forall (p : positive) (n : nat),
  exists k,
    scan_digits (NilEmpty.string_of_uint d ++ r) (Zpos p) n
    = (Zpos (Pos.of_uint_acc d p), k, r)
    /\ (n <= k)%nat.
Proof.
  intro Hr.
  induction d as [|d IH|d IH|d IH|d IH|d IH|d IH|d IH|d IH|d IH|d IH];
    intros p n;
    [ exists n; split; [apply (scan_digits_stop r _ _ Hr) | lia] | .. ];
    cbn [NilEmpty.string_of_uint append scan_digits Pos.of_uint_acc];
    change (digit_of "0") with (Some 0);
    change (digit_of "1") with (Some 1);
    change (digit_of "2") with (Some 2);
    change (digit_of "3") with (Some 3);
    change (digit_of "4") with (Some 4);
    change (digit_of "5") with (Some 5);
    change (digit_of "6") with (Some 6);
    change (digit_of "7") with (Some 7);
    change (digit_of "8") with (Some 8);
    change (digit_of "9") with (Some 9);
    cbv iota beta;
    match goal with
    | |- context [scan_digits _ ?a (S n)] =>
        match goal with
        | |- context [Pos.of_uint_acc d ?q] =>
            replace a with (Zpos q) by lia
        end
    end;
    match goal with
    | |- context [Pos.of_uint_acc d ?q] =>
        destruct (IH q (S n)) as (k & E & L)
    end;
    exists k; (split; [exact E | lia]).
Qed.

(** Scanning the digits of a decimal numeral from zero gives its value. *)
Lemma scan_digits_numeral (d : Decimal.uint) (r : string) :
  match r with String c _ => is_digit c = false | EmptyString => True end ->
  forall n : nat,
  exists k,
    scan_digits (NilEmpty.string_of_uint d ++ r) 0 n
    = (Z.of_N (Pos.of_uint d), k, r)
    /\ (n <= k)%nat.
Proof.
  intro Hr.
  induction d as [|d IH|d IH|d IH|d IH|d IH|d IH|d IH|d IH|d IH|d IH];
    intro n;
    [ exists n; split; [apply (scan_digits_stop r _ _ Hr) | lia]
    | cbn [NilEmpty.string_of_uint append scan_digits Pos.of_uint];
      change (digit_of "0") with (Some 0); cbv iota beta;
      change (10 * 0 + 0) with 0;
      destruct (IH (S n)) as (k & E & L); exists k; (split; [exact E | lia])
    | .. ];
    cbn [NilEmpty.string_of_uint append scan_digits Pos.of_uint];
    change (digit_of "1") with (Some 1);
    change (digit_of "2") with (Some 2);
    change (digit_of "3") with (Some 3);
    change (digit_of "4") with (Some 4);
    change (digit_of "5") with (Some 5);
    change (digit_of "6") with (Some 6);
    change (digit_of "7") with (Some 7);
    change (digit_of "8") with (Some 8);
    change (digit_of "9") with (Some 9);
    cbv iota beta;
    match goal with
    | |- context [Pos.of_uint_acc d ?q] =>
        destruct (scan_digits_acc d r Hr q (S n)) as (k & E & L);
        exists k; (split; [exact E | lia])
    end.
Qed.

(** The digits [put_uint] writes scan back to the number. *)
Lemma scan_digits_dec_string (z : Z) (r : string) :
  0 <= z ->
  match r with String c _ => is_digit c = false | EmptyString => True end ->
  exists k,
    scan_digits (dec_string z ++ r) 0 0 = (z, k, r) /\ (1 <= k)%nat.
Proof.
  intros Pz Hr.
  assert (V : exists k, scan_digits (dec_string z ++ r) 0 0 = (z, k, r)).
  { unfold dec_string, NilZero.string_of_uint.
    assert (V : Z.of_N (Pos.of_uint (N.to_uint (Z.to_N z))) = z).
    { change (Pos.of_uint (N.to_uint (Z.to_N z)))
        with (N.of_uint (N.to_uint (Z.to_N z))).
      rewrite DecimalN.Unsigned.of_to. lia. }
    destruct (N.to_uint (Z.to_N z)) as [|d|d|d|d|d|d|d|d|d|d] eqn:E;
      [ simpl in V; subst z; cbn [append scan_digits];
        change (digit_of "0") with (Some 0); cbv iota beta;
        rewrite (scan_digits_stop r _ _ Hr); eauto
      | rewrite <- V;
        match goal with
        | |- context [NilEmpty.string_of_uint ?u] =>
            destruct (scan_digits_numeral u r Hr 0) as (k & S & _)
        end; eauto .. ]. }
  destruct V as (k & S). exists k. split; [exact S|].
  destruct (dec_string_head z) as (c & s & Hd & D).
  destruct (digit_facts c D) as (_ & _ & _ & d & Dc & Pd).
  rewrite Hd in S. cbn [append scan_digits] in S. rewrite Dc in S.
  pose proof (scan_digits_nonneg (s ++ r)%string (10 * 0 + d) 1 ltac:(lia))
    as [_ B].
  rewrite S in B. exact B.
Qed.

Lemma firstn_length_app {A} (a b : list A) : firstn (List.length a) (a ++ b) = a.
Proof. induction a; simpl; [now destruct b | now f_equal]. Qed.

Lemma skipn_length_app {A} (a b : list A) : skipn (List.length a) (a ++ b) = b.
Proof. induction a; simpl; auto. Qed.

Lemma string_length_append (a b : string) :
  String.length (a ++ b) = (String.length a + String.length b)%nat.
Proof. induction a; simpl; auto. Qed.

Lemma repeat_char_length (c : ascii) (k : nat) :
  String.length (repeat_char c k) = k.
Proof. induction k; simpl; auto. Qed.

Lemma only_chars_append (p : ascii -> bool) (a b : string) :
  only_chars p (a ++ b) = (only_chars p a && only_chars p b)%bool.
Proof.
  induction a as [|c a IH]; simpl; [reflexivity|].
  now rewrite IH, andb_assoc.
Qed.

Lemma only_chars_weaken (p q : ascii -> bool) (s : string) :
  (forall c, p c = true -> q c = true) ->
  only_chars p s = true -> only_chars q s = true.
Proof.
  intro W. induction s as [|c s IH]; simpl; [reflexivity|].
  intro H. apply andb_true_iff in H; destruct H as [Hc Hs].
  now rewrite (W c Hc), (IH Hs).
Qed.

Lemma right_justified_length (w : nat) (s : string) :
  String.length (right_justified w s) = Nat.max w (String.length s).
Proof.
  unfold right_justified. rewrite string_length_append, repeat_char_length. lia.
Qed.

Lemma dec_string_digits (z : Z) : only_chars is_digit (dec_string z) = true.
Proof.
  unfold dec_string, NilZero.string_of_uint.
  assert (D : forall d, only_chars is_digit (NilEmpty.string_of_uint d) = true)
    by (induction d; simpl; auto).
  destruct (N.to_uint (Z.to_N z)); try apply D. reflexivity.
Qed.

(** ** A stream that is not good *)

Lemma good_setfail (ins : istream) : good (setfail ins) = false.
Proof. unfold good, setfail; simpl. now rewrite orb_true_r. Qed.

Lemma getline_not_good (ins : istream) (line : string) :
  good ins = false -> getline ins line = (line, setfail ins).
Proof. unfold getline; now intros ->. Qed.

Lemma formatted_input_not_good {A} (get : string -> A * bool * string)
    (ins : istream) (v : A) :
  good ins = false -> formatted_input get ins v = (v, setfail ins).
Proof. unfold formatted_input; now intros ->. Qed.

Section Further.

Context {NU : Numerics} {CU : CoreUtilities}.

(** ** What [read] can come to *)




(** X2.  A returning [read] names the molecule after the first line of the
    stream, whatever its name was, and leaves the atoms and the cubes the
    molecule had where they were, in front of the new ones. *)
Theorem read_names_and_appends (l rest : string) (mol : Molecule) ins' mol' :
  has_char newline l = false ->
  read (istream_of (l ++ nl ++ rest)) mol = Returned true (ins', mol') ->
  name mol' = l
  /\ firstn (atomCount mol) (atoms mol') = atoms mol
  /\ firstn (cubeCount mol) (cubes mol') = cubes mol.
Proof.
  intros N R. apply read_returned in R; destruct R as (_ & lo & B).
  destruct (read_body_returned _ _ _ _ _ B)
    as (_ & _ & _ & _ & _ & Hn & (lg & ig & _ & Ha) & (news & Hc & _)).
  unfold atomCount, cubeCount. rewrite Hn, Ha, Hc, !firstn_length_app.
  repeat split.
  unfold first_line, getline, istream_of, nl.
  cbn [good eofbit failbit orb negb buf append].
  now rewrite (cut_line_no_newline l rest N).
Qed.

(** X3.  Every atom a returning [read] adds has an atomic number from 0 to 255,
    whatever number its line began with. *)
Theorem read_atomic_numbers_are_bytes (ins : istream) (mol : Molecule) ins' mol' :
  read ins mol = Returned true (ins', mol') ->
  Forall (fun a => 0 <= atomicNumber a < 256)
    (skipn (atomCount mol) (atoms mol')).
Proof.
  intro R. apply read_returned in R; destruct R as (_ & lo & B).
  destruct (read_body_returned _ _ _ _ _ B)
    as (_ & _ & _ & _ & _ & _ & (lg & ig & _ & Ha) & _).
  unfold atomCount. rewrite Ha, skipn_length_app.
  apply Forall_forall. intros a I. apply in_map_iff in I.
  destruct I as (fs & <- & _). cbn [decoded_atom atomicNumber].
  unfold to_uchar. apply Z.mod_pos_bound. lia.
Qed.

(** ** A negative number of samples *)

Lemma read_cubes_thrown (n : nat) min dim spacing :
  forall line ins mol e ins' mol',
  read_cubes n min dim spacing line ins mol = Thrown e (ins', mol') ->
  product dim < 0
  /\ ins' = ins
  /\ name mol' = name mol /\ atoms mol' = atoms mol
  /\ cubes mol' = cubes mol ++ [mkCube min dim spacing []].
Proof.
  induction n as [|n IH]; simpl; intros line ins mol e ins' mol' T;
    [discriminate|].
  destruct (in_int (v0 dim * v1 dim)); simpl in T; [|discriminate].
  destruct (in_int (v0 dim * v1 dim * v2 dim)); simpl in T; [|discriminate].
  destruct (v0 dim * v1 dim * v2 dim <? 0) eqn:Neg.
  - injection T as _ <- <-. apply Z.ltb_lt in Neg.
    unfold product. repeat split; try assumption.
    cbn [setLimits cubes]. unfold cubeCount.
    now erewrite update_last_cube by reflexivity.
  - destruct (read_values _ ins) as [vs i1].
    destruct (getline i1 line) as [l1 i2].
    apply IH in T. destruct T as (P & _). unfold product in P.
    apply Z.ltb_ge in Neg. lia.
Qed.

(** X4.  When [read] throws, the exception is the [length_error] of [resize]
    on a negative product of the three counts; the molecule then has its
    new name and all its new atoms, and one new cube, with its limits set
    and without samples. *)
Theorem read_throws_on_negative_size (ins : istream) (mol : Molecule)
    (e : exn) ins' mol' :
  read ins mol = Thrown e (ins', mol') ->
  e = length_error
  /\ product (file_dim (fst (axes_start ins)) (snd (axes_start ins))) < 0
  /\ name mol' = first_line ins
  /\ exists nAtoms rawmin lineg insg,
       header_nAtoms ins = Some nAtoms
       /\ vinit (header_min ins) = Some rawmin
       /\ geometry_start ins = Some (lineg, insg)
       /\ atoms mol'
          = atoms mol
            ++ map decoded_atom (field_lists (Z.abs_nat nAtoms) lineg insg)
       /\ cubes mol'
          = cubes mol
            ++ [mkCube (vscale rawmin BOHR_TO_ANGSTROM)
                  (file_dim (fst (axes_start ins)) (snd (axes_start ins)))
                  (vscale
                     (file_spacing (fst (axes_start ins)) (snd (axes_start ins)))
                     BOHR_TO_ANGSTROM) []].
Proof.
  intro T. split; [now destruct e|].
  assert (F : final_state (read_body ins mol) = Some (ins', mol'))
    by (rewrite <- read_final_state, T; reflexivity).
  destruct (read_body_phases ins mol _ F)
    as (nAtoms & rawmin & dim & rawsp & line1 & ins1 & lineg & insg & molg
        & Hn & Hm & Ha & Hg & E).
  unfold read in T. rewrite E in T.
  destruct (read_cube_count nAtoms lineg insg) as [[nC lc] ic].
  cbv zeta in T.
  destruct (read_cubes _ _ _ _ _ _ _) as [? ?|e' s'| |] eqn:C;
    cbn [bind] in T; try discriminate.
  injection T as -> ->.
  apply read_cubes_thrown in C. destruct C as (P & _ & Cn & Ca & Cc).
  destruct (read_axes_fields _ _ _ _ _ _ Ha) as [-> ->].
  destruct (read_geometry_returned _ _ _ _ _ _ _ Hg) as (Gn & Gc & Ga & _).
  cbn [perceiveBondsSimple name atoms cubes] in Cn, Ca, Cc.
  split; [assumption|]. split; [now rewrite Cn, Gn|].
  exists nAtoms, rawmin, line1, ins1. repeat split; try assumption.
  - unfold geometry_start. destruct (axes_start ins) as [l0 i0].
    cbn [fst snd] in Ha. now rewrite Ha.
  - now rewrite Ca, Ga.
  - now rewrite Cc, Gc.
Qed.

(** ** A stream that ended too early *)

Lemma read_values_not_good (n : nat) : forall ins,
  good ins = false ->
  exists ins',
    read_values n ins = (repeat float_zero n, ins') /\ good ins' = false.
Proof.
  induction n as [|n IH]; intros ins G; simpl; [eauto|].
  unfold extract_float. rewrite (formatted_input_not_good _ _ _ G).
  destruct (IH (setfail ins) (good_setfail ins)) as (ins' & -> & G').
  eauto.
Qed.

Lemma read_moList_not_good (n : nat) : forall ins,
  good ins = false -> good (read_moList n ins) = false.
Proof.
  induction n as [|n IH]; intros ins G; simpl; [assumption|].
  apply IH. unfold extract_uint. rewrite (formatted_input_not_good _ _ _ G).
  apply good_setfail.
Qed.

(** X5.  Once the stream is not good (the file ended, or a number did not
    convert), the count of cubes stays at 1 and the cube loop still returns:
    each cube it adds gets a buffer of the size of its dimensions filled
    with zeros. *)
Theorem cubes_of_a_failed_stream_are_zero (n : nat) (nAtoms : Z)
    (min : Vector3) (dim : Vector3i) (spacing : Vector3)
    (line : string) (ins : istream) (mol : Molecule) :
  good ins = false ->
  in_int (v0 dim * v1 dim) = true ->
  in_int (product dim) = true ->
  0 <= product dim ->
  (exists ins0,
     read_cube_count nAtoms line ins = (1, line, ins0)
     /\ (0 <= nAtoms -> ins0 = ins) /\ good ins0 = false)
  /\ exists ins' mol',
       read_cubes n min dim spacing line ins mol = Returned line (ins', mol')
       /\ good ins' = false
       /\ atoms mol' = atoms mol
       /\ cubes mol' = cubes mol ++ repeat (zero_cube min dim spacing) n.
Proof.
  intros G I1 I2 P. split.
  - unfold read_cube_count. destruct (nAtoms <? 0) eqn:S.
    + unfold extract_uint. rewrite (formatted_input_not_good _ _ _ G).
      change (Z.to_nat 1) with 1%nat. cbn [read_moList].
      unfold extract_uint.
      rewrite (formatted_input_not_good _ _ _ (good_setfail ins)). cbn [snd].
      rewrite (getline_not_good _ _ (good_setfail _)).
      eexists. split; [reflexivity|]. split; [|apply good_setfail].
      apply Z.ltb_lt in S. lia.
    + exists ins. auto.
  - revert line ins mol G.
    induction n as [|n IH]; intros line ins mol G.
    + exists ins, mol. cbn [read_cubes repeat]. rewrite app_nil_r. auto.
    + cbn [read_cubes addCube]. cbv zeta. unfold product in I2, P.
      rewrite I1, I2. cbn [negb].
      destruct (v0 dim * v1 dim * v2 dim <? 0) eqn:Neg;
        [apply Z.ltb_lt in Neg; lia|].
      destruct (read_values_not_good (Z.to_nat (v0 dim * v1 dim * v2 dim)) ins G)
        as (i1 & -> & G1).
      rewrite (getline_not_good _ _ G1).
      match goal with |- context [read_cubes n _ _ _ line (setfail i1) ?m] =>
        destruct (IH line (setfail i1) m (good_setfail i1))
          as (ins' & mol' & -> & G' & Ha & Hc) end.
      exists ins', mol'. split; [reflexivity|]. split; [assumption|].
      split; [exact Ha|].
      rewrite Hc. simpl. unfold cubeCount.
      erewrite update_last_cube;
        [|simpl; erewrite update_last_cube; reflexivity].
      simpl. rewrite <- app_assoc. reflexivity.
Qed.

(** ** A file without the line of the atom count *)

(** X6.  When the stream is not good after the name line and the title line,
    or holds only white space from there on, [nAtoms] is never written and
    the behaviour of [read] is undefined: it does not report the short
    file. *)
Theorem read_without_atom_count_is_undefined (ins : istream) (mol : Molecule) :
  good (header_stream ins) = false
  \/ skipws (buf (header_stream ins)) = "" ->
  read ins mol = Undefined.
Proof.
  unfold header_stream, read, read_body, read_header.
  destruct (getline ins "") as [l0 i0]. cbn [fst snd].
  destruct (getline i0 l0) as [l1 i1]. cbn [snd].
  intro C.
  assert (E : exists i2, formatted_input (fresh get_int) i1 None = (None, i2)).
  { unfold formatted_input. destruct (good i1); [|eauto].
    destruct C as [C|C]; [discriminate|]. rewrite C. eauto. }
  destruct E as (i2 & ->).
  destruct (formatted_input (fresh num_get_double) i2 None) as [a i3].
  destruct (formatted_input (fresh num_get_double) i3 None) as [b i4].
  destruct (formatted_input (fresh num_get_double) i4 None) as [c i5].
  destruct (getline i5 l1) as [l2 i6].
  destruct (read_axes l2 i6) as [[[[? ?] ?] ?]|]; reflexivity.
Qed.

(** ** What [write] can come to *)


(** ** The two column writers *)

(** X8.  [writeFixedInt] adds one field to the text: the decimal digits of its
    argument as an [unsigned int], padded with spaces on the left to 5
    characters and never cut; the field holds no sign, and read back as
    digits it gives the argument whenever that is an [unsigned int]
    value.  [writeFixedFloat] adds the digits of the fixed notation with
    6 decimals, padded to 12 characters and never cut, whatever notation
    and precision the stream had. *)
Theorem column_writers (o : ostream) (z : Z) (x : Real) :
  (text (writeFixedInt o z) = (text o ++ int_column z)%string
   /\ String.length (int_column z)
      = Nat.max 5 (String.length (dec_string (to_uint z)))
   /\ only_chars space_or_digit (int_column z) = true
   /\ (0 <= z <= UINT_MAX ->
       exists k, scan_digits (skipws (int_column z)) 0 0 = (z, k, "")))
  /\ (text (writeFixedFloat o x) = (text o ++ float_column x)%string
      /\ String.length (float_column x)
         = Nat.max 12 (String.length (num_put_double ff_fixed 6 x))
      /\ exists pad,
           float_column x
           = (repeat_char space pad ++ num_put_double ff_fixed 6 x)%string).
Proof.
  split; [split; [|split; [|split]] | split; [|split]].
  - reflexivity.
  - apply right_justified_length.
  - unfold int_column, right_justified. rewrite only_chars_append.
    apply andb_true_iff. split.
    + generalize (5 - String.length (dec_string (to_uint z)))%nat.
      intro k. induction k; simpl; auto.
    + apply (only_chars_weaken is_digit); [|apply dec_string_digits].
      intros c D. unfold space_or_digit. rewrite D. apply orb_true_r.
  - intros R. unfold int_column, right_justified.
    assert (U : to_uint z = z)
      by (unfold to_uint; apply Z.mod_small; unfold UINT_MAX in R; lia).
    rewrite U, skipws_spaces.
    destruct (scan_digits_dec_string z "" ltac:(lia) I) as (k & S & _).
    rewrite append_nil_r in S.
    destruct (dec_string_head z) as (c & s & Hd & D).
    rewrite Hd in *. cbn [skipws].
    destruct (digit_facts c D) as (-> & _). eauto.
  - reflexivity.
  - apply right_justified_length.
  - eexists. reflexivity.
Qed.

(** ** The formatting state [write] leaves behind *)

Lemma fixed_state_put_string (s : string) (o : ostream) :
  fixed_state o -> fixed_state (put_string s o).
Proof. intros (W & A & F & P). repeat split; assumption. Qed.

Lemma fixed_state_writeFixedFloat (o : ostream) (x : Real) :
  fixed_state (writeFixedFloat o x).
Proof. repeat split. Qed.

Lemma fixed_state_write_atom (a : Atom) (o : ostream) :
  fixed_state (write_atom a o).
Proof. repeat split. Qed.

Lemma fixed_state_write_axis (i : nat) (d : Z) (s : Real) (o : ostream) :
  fixed_state (write_axis i d s o).
Proof. repeat split. Qed.

Lemma fixed_state_write_atoms (mol : Molecule) (n : nat) : forall i o,
  fixed_state o -> fixed_state (snd (write_atoms n i mol o)).
Proof.
  induction n as [|n IH]; intros i o F; simpl; [assumption|].
  destruct (nth_error (atoms mol) i); [|assumption].
  apply IH, fixed_state_write_atom.
Qed.

Lemma scientific_state_write_values (values : list float) : forall i o,
  scientific_state o -> scientific_state (write_values values i o).
Proof.
  induction values as [|x rest IH]; intros i o S; [assumption|].
  cbn [write_values]. apply IH.
  destruct (i mod 6 =? 5); repeat split.
Qed.

(** X9.  A successful [write] leaves the stream with width 0 and right
    adjustment, in scientific notation with precision 5 when the first
    cube has samples, and in fixed notation with precision 6 when it has
    none: the manipulators it applied stay in force for the caller. *)
Theorem write_leaves_its_format (out : ostream) (mol : Molecule) (out' : ostream) :
  write out mol = Returned true out' ->
  exists cube rest,
    cubes mol = cube :: rest
    /\ (cube_data cube = [] -> fixed_state out')
    /\ (cube_data cube <> [] -> scientific_state out').
Proof.
  unfold write. destruct (cubes mol) as [|cube rest]; [discriminate|].
  match goal with |- context [write_atoms _ 0 mol ?o] =>
    pose proof (fixed_state_write_atoms mol (atomCount mol) 0 o
                  (fixed_state_write_axis _ _ _ _)) as F;
    destruct (write_atoms (atomCount mol) 0 mol o) as [[] o3] end;
    [|discriminate].
  cbn [snd] in F.
  destruct (UINT_MAX <? _); [discriminate|].
  intro W; injection W as <-.
  exists cube, rest. split; [reflexivity|]. split.
  - intros ->. exact F.
  - destruct (cube_data cube) as [|x vs]; [congruence|]. intros _.
    cbn [write_values]. apply scientific_state_write_values.
    destruct (0 mod 6 =? 5); repeat split.
Qed.

(** ** The atom count through [write] and [read] *)

Lemma extract_int_of_column_exact (z : Z) (r : string) :
  0 <= z <= INT_MAX ->
  exists ins',
    formatted_input (fresh get_int)
      (mkIstream (int_column z ++ String space r) false false) None
    = (Some z, ins').
Proof.
  intro R. unfold formatted_input, int_column, right_justified.
  cbn [good eofbit failbit orb negb buf].
  assert (U : to_uint z = z)
    by (unfold to_uint; apply Z.mod_small; unfold INT_MAX in R; lia).
  rewrite U, append_assoc, skipws_spaces.
  destruct (scan_digits_dec_string z (String space r) ltac:(lia) eq_refl)
    as (k & S & K).
  destruct (dec_string_head z) as (c & s & Hd & D).
  rewrite Hd in *. cbn [append skipws] in *.
  destruct (digit_facts c D) as (-> & M & P & _).
  unfold fresh, get_int, scan_integer. rewrite M, P, S.
  destruct (Nat.eqb k 0) eqn:K0; [apply Nat.eqb_eq in K0; lia|].
  destruct (z <? INT_MIN) eqn:L1;
    [apply Z.ltb_lt in L1; unfold INT_MIN in L1; lia|].
  destruct (INT_MAX <? z) eqn:L2; [apply Z.ltb_lt in L2; lia|].
  eauto.
Qed.

Lemma header_of_written_exact (nm : string) (z : Z) (r : string) :
  has_char newline nm = false ->
  0 <= z <= INT_MAX ->
  header_nAtoms
    (istream_of (banner ++ nl ++ nm ++ nl ++ int_column z ++ String space r))
  = Some z.
Proof.
  intros N R. unfold nl. cbn [append].
  unfold header_nAtoms, read_header, getline, istream_of.
  cbn [good eofbit failbit orb negb buf]. rewrite banner_line.
  cbn [good eofbit failbit orb negb buf].
  rewrite (cut_line_no_newline nm _ N).
  destruct (extract_int_of_column_exact z r R) as (ins' & ->).
  destruct (formatted_input (fresh num_get_double) ins' None) as [a i3].
  destruct (formatted_input (fresh num_get_double) i3 None) as [b i4].
  destruct (formatted_input (fresh num_get_double) i4 None) as [c i5].
  destruct (good i5); [destruct (cut_line (buf i5)) as [[? ?] []]|]; reflexivity.
Qed.

(** X10.  For a molecule whose name has no line break, whose atoms an [int] can
    count and whose first origin component fits its column of 12 with a
    space to spare, [read] takes from the text of a successful [write]
    the atom count of the molecule; and whenever [read] of that text
    returns, it has added as many atoms as the molecule has, and one
    cube. *)
Theorem atom_count_survives_write_and_read
    (mol : Molecule) (cube : Cube) (rest : list Cube) (out' : ostream) :
  cubes mol = cube :: rest ->
  has_char newline (name mol) = false ->
  Z.of_nat (atomCount mol) <= INT_MAX ->
  (String.length
     (num_put_double ff_fixed 6
        (Real_mul (v0 (cube_min cube)) ANGSTROM_TO_BOHR)) < 12)%nat ->
  write ostream_new mol = Returned true out' ->
  header_nAtoms (istream_of (text out')) = Some (Z.of_nat (atomCount mol))
  /\ forall m0 ins' m',
       read (istream_of (text out')) m0 = Returned true (ins', m') ->
       atomCount m' = (atomCount m0 + atomCount mol)%nat
       /\ cubeCount m' = (cubeCount m0 + 1)%nat.
Proof.
  intros E N R L W.
  destruct (write_returned_true _ _ _ W eq_refl) as (cube' & rest' & E' & T).
  rewrite E in E'. injection E' as <- <-.
  cbn [ostream_new text append] in T.
  assert (S : exists r,
             file_text mol cube
             = (banner ++ nl ++ name mol ++ nl
                ++ int_column (Z.of_nat (atomCount mol)) ++ String space r)%string).
  { unfold file_text, head_text, float_column at 1, right_justified.
    destruct (12 - String.length _)%nat as [|k] eqn:K; [lia|].
    cbn [repeat_char append]. eexists. rewrite !append_assoc.
    cbn [append]. reflexivity. }
  destruct S as (r & S). rewrite S in T.
  assert (Hn : header_nAtoms (istream_of (text out'))
               = Some (Z.of_nat (atomCount mol)))
    by (rewrite T; apply header_of_written_exact; [assumption | lia]).
  split; [exact Hn|].
  intros m0 ins' m' Rd.
  destruct (read_counts _ _ _ _ Rd) as (n & c & Hl & Ha & Hc & H1).
  rewrite Hn in Hl. injection Hl as <-.
  rewrite Zabs2Nat.id in Ha. split; [exact Ha|].
  now rewrite (H1 ltac:(lia)) in Hc.
Qed.

End Further.

(* ------------------------------------------------------------------ *)
(** * The claims on concrete files *)

Import Exact.

Local Open Scope Q_scope.

(** C1, counterexample.  A file whose first atom line begins with [X] and
    which ends after three of its eight samples is decoded with success: the
    atom gets atomic number 0 and the missing samples are 0. *)
Lemma malformed_input_is_accepted :
  decode malformed_file = Returned true (decode_state malformed_file)
  /\ map atomicNumber (atoms (snd (decode_state malformed_file))) = [0%Z; 8%Z]
  /\ map cube_data (cubes (snd (decode_state malformed_file)))
     = [[0; 1; 2; 0; 0; 0; 0; 0]].
Proof.
  split; [apply returned_true; vm_compute; reflexivity|].
  split; vm_compute; reflexivity.
Qed.

Lemma read_has_no_failure_return_witness :
  decode malformed_file
  = Returned (decode_result malformed_file) (decode_state malformed_file)
  /\ decode_result malformed_file = true.
Proof.
  assert (R : decode malformed_file
              = Returned (decode_result malformed_file)
                  (decode_state malformed_file))
    by (apply returns_intro; vm_compute; reflexivity).
  split; [exact R|].
  exact (read_has_no_failure_return (istream_of malformed_file) empty_molecule
           (decode_result malformed_file) (decode_state malformed_file) R).
Defined.


(** The second scenario gives one atom and two cubes. *)
Example two_cube_file_counts :
  atomCount (snd (decode_state two_cube_file)) = 1%nat
  /\ cubeCount (snd (decode_state two_cube_file)) = 2%nat.
Proof. split; vm_compute; reflexivity. Qed.

(** C4, counterexample.  A file whose first axis line declares 0 points is
    decoded with success, into a cube of dimensions (0, 2, 2) without
    samples. *)
Lemma zero_dimension_is_accepted :
  decode zero_dim_file = Returned true (decode_state zero_dim_file)
  /\ map cube_dimensions (cubes (snd (decode_state zero_dim_file)))
     = [mkVec3 0%Z 2%Z 2%Z]
  /\ map cube_data (cubes (snd (decode_state zero_dim_file))) = [[]].
Proof.
  split; [apply returned_true; vm_compute; reflexivity|].
  split; vm_compute; reflexivity.
Qed.

Lemma read_keeps_any_dimensions_witness :
  let ins := istream_of zero_dim_file in
  let ins' := fst (decode_state zero_dim_file) in
  let mol' := snd (decode_state zero_dim_file) in
  read ins empty_molecule = Returned (decode_result zero_dim_file) (ins', mol')
  /\ decode_result zero_dim_file = true
  /\ exists news,
       cubes mol' = cubes empty_molecule ++ news
       /\ Forall (fun c =>
            cube_dimensions c
            = file_dim (fst (axes_start ins)) (snd (axes_start ins))
            /\ Z.of_nat (List.length (cube_data c))
               = product (cube_dimensions c)) news.
Proof.
  cbv zeta.
  assert (R : read (istream_of zero_dim_file) empty_molecule
              = Returned (decode_result zero_dim_file)
                  (fst (decode_state zero_dim_file),
                   snd (decode_state zero_dim_file)))
    by (apply (returns_intro_pair (decode zero_dim_file));
        vm_compute; reflexivity).
  split; [exact R|].
  exact (read_keeps_any_dimensions _ _ _ _ _ R).
Defined.

Lemma write_without_cube_writes_nothing_witness :
  cubeCount (@empty_molecule numerics) = 0%nat
  /\ write ostream_new empty_molecule = Returned false ostream_new.
Proof.
  split; [reflexivity|].
  exact (write_without_cube_writes_nothing ostream_new empty_molecule eq_refl).
Defined.

(** The sheared file decodes with success, to the spacing of the plain
    one. *)
Example sheared_file_decodes :
  decode sheared_file = Returned true (decode_state sheared_file)
  /\ map cube_spacing (cubes (snd (decode_state sheared_file)))
     = map cube_spacing (cubes (snd (decode_state co_file))).
Proof.
  split; [apply returned_true; vm_compute; reflexivity|].
  vm_compute; reflexivity.
Qed.

Lemma axis_lines_diagonal_only_witness :
  let file := istream_of sheared_file in
  let line := fst (axes_start file) in
  let ins := snd (axes_start file) in
  ((1 < List.length (axis_fields 0 line ins))%nat
   /\ (2 < List.length (axis_fields 1 line ins))%nat
   /\ (3 < List.length (axis_fields 2 line ins))%nat
   /\ read_body file empty_molecule
      = Returned (decode_locals sheared_file) (decode_state sheared_file))
  /\ (exists line' ins',
        read_axes line ins
        = Some (file_dim line ins, file_spacing line ins, line', ins'))
  /\ (l_dim (decode_locals sheared_file) = file_dim line ins
      /\ l_spacing (decode_locals sheared_file)
         = vscale (file_spacing line ins) BOHR_TO_ANGSTROM)
  /\ file_dim line ins = mkVec3 2%Z 2%Z 2%Z
  /\ file_spacing line ins = mkVec3 (1 # 2) (1 # 2) (1 # 2).
Proof.
  cbv zeta.
  assert (L : (1 < List.length
                     (axis_fields 0 (fst (axes_start (istream_of sheared_file)))
                        (snd (axes_start (istream_of sheared_file)))))%nat
              /\ (2 < List.length
                        (axis_fields 1 (fst (axes_start (istream_of sheared_file)))
                           (snd (axes_start (istream_of sheared_file)))))%nat
              /\ (3 < List.length
                        (axis_fields 2 (fst (axes_start (istream_of sheared_file)))
                           (snd (axes_start (istream_of sheared_file)))))%nat)
    by (vm_compute; repeat split; lia).
  assert (R : read_body (istream_of sheared_file) empty_molecule
              = Returned (decode_locals sheared_file)
                  (decode_state sheared_file)).
  { unfold decode_locals, decode_state, decode.
    pose proof (state_or_read (istream_of "", empty_molecule)
                  (istream_of sheared_file) empty_molecule) as E.
    unfold rstate in E. rewrite E.
    apply returns_intro. vm_compute; reflexivity. }
  destruct L as (L0 & L1 & L2).
  split; [repeat split; assumption|]. split.
  - exact (proj1 axis_lines_diagonal_only _ _ L0 L1 L2).
  - split.
    + exact (proj2 axis_lines_diagonal_only _ _ _ _ R).
    + split; vm_compute; reflexivity.
Defined.

Lemma perceive_bonds_once_witness :
  let ins' := fst (decode_state co_file) in
  let mol' := snd (decode_state co_file) in
  final_state (read (istream_of co_file) empty_molecule) = Some (ins', mol')
  /\ exists nAtoms before after,
       header_nAtoms (istream_of co_file) = Some nAtoms
       /\ history mol'
          = history empty_molecule ++ before ++ [call_perceiveBondsSimple] ++ after
       /\ forallb is_atom_call before = true
       /\ List.length (filter is_addAtom before) = Z.abs_nat nAtoms
       /\ forallb is_cube_call after = true.
Proof.
  cbv zeta.
  assert (F : final_state (read (istream_of co_file) empty_molecule)
              = Some (fst (decode_state co_file), snd (decode_state co_file)))
    by (rewrite (returned_true_pair (decode co_file)
                   (istream_of "", empty_molecule)
                   ltac:(vm_compute; reflexivity)) at 1; reflexivity).
  split; [exact F|].
  exact (perceive_bonds_once_between_atoms_and_cubes _ _ _ _ F).
Defined.

(** The calls of the first scenario. *)
Example co_file_history :
  history (snd (decode_state co_file))
  = [call_setData "name" "CO"; call_addAtom 6; call_setPosition3d 0;
     call_addAtom 8; call_setPosition3d 1; call_perceiveBondsSimple;
     call_addCube; call_setLimits 0; call_cube_setData 0].
Proof. vm_compute; reflexivity. Qed.



Lemma unit_conversion_on_lengths_only_witness :
  let ins := istream_of co_file in
  let ins' := fst (decode_state co_file) in
  let mol' := snd (decode_state co_file) in
  let out' := encode_stream water_molecule in
  (read ins empty_molecule = Returned true (ins', mol')
   /\ exists nAtoms rawmin lineg insg news,
        header_nAtoms ins = Some nAtoms
        /\ vinit (header_min ins) = Some rawmin
        /\ geometry_start ins = Some (lineg, insg)
        /\ atoms mol'
           = atoms empty_molecule
             ++ map (fun fs =>
                       mkAtom (to_uchar (lexicalCast_short (field fs 0)))
                         (vmap (fun c => Real_mul c BOHR_TO_ANGSTROM)
                            (file_position fs)))
                  (field_lists (Z.abs_nat nAtoms) lineg insg)
        /\ cubes mol' = cubes empty_molecule ++ news
        /\ Forall (fun c =>
             cube_min c = vmap (fun c => Real_mul c BOHR_TO_ANGSTROM) rawmin
             /\ cube_spacing c
                = vmap (fun c => Real_mul c BOHR_TO_ANGSTROM)
                    (file_spacing (fst (axes_start ins)) (snd (axes_start ins)))
             /\ cube_dimensions c
                = file_dim (fst (axes_start ins)) (snd (axes_start ins))) news)
  /\ ((width ostream_new = 0%nat
       /\ write ostream_new water_molecule = Returned true out')
      /\ exists cube rest,
           cubes water_molecule = cube :: rest
           /\ text out'
              = (text ostream_new ++ file_text water_molecule cube)%string).
Proof.
  cbv zeta.
  assert (R : read (istream_of co_file) empty_molecule
              = Returned true (fst (decode_state co_file),
                               snd (decode_state co_file)))
    by (apply (returned_true_pair (decode co_file)); vm_compute; reflexivity).
  assert (W : write ostream_new water_molecule
              = Returned true (encode_stream water_molecule))
    by (apply (returned_true (encode water_molecule));
        vm_compute; reflexivity).
  split.
  - split; [exact R|].
    exact (proj1 unit_conversion_on_lengths_only _ _ _ _ R).
  - split; [split; [reflexivity | exact W]|].
    exact (proj2 unit_conversion_on_lengths_only ostream_new water_molecule
             (encode_stream water_molecule) eq_refl W).
Defined.

(** The first scenario: the oxygen at 1 Bohr on the x axis is stored at
    [k] Angstrom, the spacing of 0.5 Bohr as [k / 2], the counts as they
    are; written again, the lengths are in Bohr. *)
Example co_file_units :
  map position3d (atoms (snd (decode_state co_file)))
  = [mkVec3 0 0 0; mkVec3 (529177210903 # 1000000000000) 0 0]
  /\ map atomicNumber (atoms (snd (decode_state co_file))) = [6%Z; 8%Z]
  /\ map cube_dimensions (cubes (snd (decode_state co_file)))
     = [mkVec3 2%Z 2%Z 2%Z]
  /\ map (fun c => v0 (cube_spacing c)) (cubes (snd (decode_state co_file)))
     = [529177210903 # 2000000000000]
  /\ nth 7 (lines (text (encode_stream (snd (decode_state co_file))))) ""%string
     = "    8    0.000000    1.000000    0.000000    0.000000"%string
  /\ nth 3 (lines (text (encode_stream (snd (decode_state co_file))))) ""%string
     = "    2    0.500000    0.000000    0.000000"%string.
Proof. repeat split; vm_compute; reflexivity. Qed.

(** The samples of the 2x2x2 grid as [write] lays them out. *)
Example grid_values_text :
  values_text 0 (cube_data grid_cube)
  = ("  0.00000e+00  1.00000e+00  2.00000e+00  3.00000e+00  4.00000e+00  5.00000e+00"
     ++ nl ++ "  6.00000e+00  7.00000e+00")%string.
Proof. vm_compute; reflexivity. Qed.

Lemma values_six_per_line_witness :
  (cubes grid_molecule = [grid_cube]
   /\ (Z.of_nat (List.length (cube_data grid_cube)) <= UINT_MAX)%Z)
  /\ exists head,
       write ostream_new grid_molecule
       = Returned true (write_values (cube_data grid_cube) 0 head)
       /\ text (write_values (cube_data grid_cube) 0 head)
          = (text head ++ values_text 0 (cube_data grid_cube))%string
       /\ forall vs x,
            cube_data grid_cube = vs ++ [x] ->
            values_text 0 (cube_data grid_cube)
            = (values_text 0 vs
               ++ right_justified 13 (num_put_float ff_scientific 5 x)
               ++ (if Nat.eqb (List.length (cube_data grid_cube) mod 6) 0
                   then nl else ""))%string.
Proof.
  assert (L : (Z.of_nat (List.length (cube_data grid_cube)) <= UINT_MAX)%Z)
    by (vm_compute; discriminate).
  split; [split; [reflexivity | exact L]|].
  exact (values_six_per_line ostream_new grid_molecule grid_cube [] eq_refl L).
Defined.

(** C10, counterexample.  A molecule with one grid whose name has several
    lines is encoded with success; the third line of the text is a line of
    the name, [read] takes -1 from it as atom count, and decoding the text
    succeeds with no cube at all. *)
Lemma multiline_name_gives_negative_atom_count :
  let t := text (encode_stream multiline_molecule) in
  encoded multiline_molecule = Some t
  /\ nth 2 (lines t) ""%string = "-1 0 0 0"%string
  /\ header_nAtoms (istream_of t) = Some (-1)%Z
  /\ decode t = Returned true (decode_state t)
  /\ cubeCount (snd (decode_state t)) = 0%nat.
Proof.
  cbv zeta.
  split; [vm_compute; reflexivity|].
  split; [vm_compute; reflexivity|].
  split; [vm_compute; reflexivity|].
  split; [apply returned_true; vm_compute; reflexivity|].
  vm_compute; reflexivity.
Qed.

Lemma written_atom_count_not_negative_witness :
  let o := encode_stream water_molecule in
  (has_char newline (name water_molecule) = false
   /\ write ostream_new water_molecule = Returned true o)
  /\ (exists rest,
        text o
        = (banner ++ nl ++ name water_molecule ++ nl
           ++ int_column (Z.of_nat (atomCount water_molecule)) ++ rest)%string)
  /\ (exists v, header_nAtoms (istream_of (text o)) = Some v /\ (0 <= v)%Z)
  /\ (forall m0 ins' m',
        read (istream_of (text o)) m0 = Returned true (ins', m') ->
        cubeCount m' = (cubeCount m0 + 1)%nat).
Proof.
  cbv zeta.
  assert (N : has_char newline (name water_molecule) = false) by reflexivity.
  assert (W : write ostream_new water_molecule
              = Returned true (encode_stream water_molecule))
    by (apply (returned_true (encode water_molecule));
        vm_compute; reflexivity).
  split; [split; assumption|].
  exact (written_atom_count_not_negative water_molecule
           (encode_stream water_molecule) N W).
Defined.

(* ------------------------------------------------------------------ *)
(** * The further properties on concrete files *)

Lemma read_names_and_appends_witness :
  let rest := snd (fst (cut_line co_file)) in
  let ins' := fst (read_state co_file water_molecule) in
  let mol' := snd (read_state co_file water_molecule) in
  (has_char newline "CO" = false
   /\ read (istream_of ("CO" ++ nl ++ rest)) water_molecule
      = Returned true (ins', mol'))
  /\ name mol' = "CO"%string
  /\ firstn (atomCount water_molecule) (atoms mol') = atoms water_molecule
  /\ firstn (cubeCount water_molecule) (cubes mol') = cubes water_molecule.
Proof.
  cbv zeta.
  assert (R : read (istream_of ("CO" ++ nl ++ snd (fst (cut_line co_file))))
                water_molecule
              = Returned true (fst (read_state co_file water_molecule),
                               snd (read_state co_file water_molecule)))
    by (apply (returned_true_pair
                 (read (istream_of co_file) water_molecule));
        vm_compute; reflexivity).
  split; [split; [reflexivity | exact R]|].
  exact (read_names_and_appends "CO" _ water_molecule _ _ eq_refl R).
Defined.

(** Read after the water molecule, the first scenario leaves three atoms
    and two cubes. *)
Example read_into_water_counts :
  map atomicNumber (atoms (snd (read_state co_file water_molecule)))
  = [8%Z; 6%Z; 8%Z]
  /\ cubeCount (snd (read_state co_file water_molecule)) = 2%nat.
Proof. split; vm_compute; reflexivity. Qed.

Lemma read_atomic_numbers_are_bytes_witness :
  let ins' := fst (decode_state wide_number_file) in
  let mol' := snd (decode_state wide_number_file) in
  read (istream_of wide_number_file) empty_molecule = Returned true (ins', mol')
  /\ Forall (fun a => (0 <= atomicNumber a < 256)%Z)
       (skipn (atomCount empty_molecule) (atoms mol')).
Proof.
  cbv zeta.
  assert (R : read (istream_of wide_number_file) empty_molecule
              = Returned true (fst (decode_state wide_number_file),
                               snd (decode_state wide_number_file)))
    by (apply (returned_true_pair (decode wide_number_file));
        vm_compute; reflexivity).
  split; [exact R|].
  exact (read_atomic_numbers_are_bytes _ _ _ _ R).
Defined.

(** The atom line that begins with 300 gives atomic number 44. *)
Example wide_number_file_atoms :
  map atomicNumber (atoms (snd (decode_state wide_number_file))) = [44%Z; 8%Z].
Proof. vm_compute; reflexivity. Qed.

Lemma read_throws_on_negative_size_witness :
  let ins := istream_of negative_dim_file in
  let ins' := fst (decode_state negative_dim_file) in
  let mol' := snd (decode_state negative_dim_file) in
  read ins empty_molecule = Thrown length_error (ins', mol')
  /\ length_error = length_error
  /\ (product (file_dim (fst (axes_start ins)) (snd (axes_start ins))) < 0)%Z
  /\ name mol' = first_line ins
  /\ exists nAtoms rawmin lineg insg,
       header_nAtoms ins = Some nAtoms
       /\ vinit (header_min ins) = Some rawmin
       /\ geometry_start ins = Some (lineg, insg)
       /\ atoms mol'
          = atoms empty_molecule
            ++ map decoded_atom (field_lists (Z.abs_nat nAtoms) lineg insg)
       /\ cubes mol'
          = cubes empty_molecule
            ++ [mkCube (vscale rawmin BOHR_TO_ANGSTROM)
                  (file_dim (fst (axes_start ins)) (snd (axes_start ins)))
                  (vscale
                     (file_spacing (fst (axes_start ins)) (snd (axes_start ins)))
                     BOHR_TO_ANGSTROM) []].
Proof.
  cbv zeta.
  assert (T : read (istream_of negative_dim_file) empty_molecule
              = Thrown length_error (fst (decode_state negative_dim_file),
                                     snd (decode_state negative_dim_file)))
    by (apply (thrown_pair (decode negative_dim_file));
        vm_compute; reflexivity).
  split; [exact T|].
  exact (read_throws_on_negative_size _ _ _ _ _ T).
Defined.

(** The file with -2 points leaves two atoms and a cube of 8 points, in
    absolute value, without any sample. *)
Example negative_dim_file_state :
  atomCount (snd (decode_state negative_dim_file)) = 2%nat
  /\ map cube_dimensions (cubes (snd (decode_state negative_dim_file)))
     = [mkVec3 (-2)%Z 2%Z 2%Z]
  /\ map cube_data (cubes (snd (decode_state negative_dim_file))) = [[]].
Proof. repeat split; vm_compute; reflexivity. Qed.

Lemma cubes_of_a_failed_stream_are_zero_witness :
  let ins := setfail (istream_of "") in
  let dim := mkVec3 1%Z 2%Z 1%Z in
  let min := mkVec3 0 0 0 in
  let spacing := mkVec3 1 1 1 in
  (good ins = false
   /\ in_int (v0 dim * v1 dim) = true
   /\ in_int (product dim) = true
   /\ (0 <= product dim)%Z)
  /\ (exists ins0,
        read_cube_count (-1) "" ins = (1%Z, ""%string, ins0)
        /\ ((0 <= -1)%Z -> ins0 = ins) /\ good ins0 = false)
  /\ exists ins' mol',
       @read_cubes numerics 2 min dim spacing "" ins empty_molecule
       = Returned ""%string (ins', mol')
       /\ good ins' = false
       /\ atoms mol' = atoms empty_molecule
       /\ cubes mol'
          = cubes empty_molecule ++ repeat (zero_cube min dim spacing) 2.
Proof.
  cbv zeta.
  assert (G : good (setfail (istream_of "")) = false) by reflexivity.
  assert (I1 : in_int (v0 (mkVec3 1 2 1) * v1 (mkVec3 1 2 1))%Z = true)
    by reflexivity.
  assert (I2 : in_int (product (mkVec3 1%Z 2%Z 1%Z)) = true) by reflexivity.
  assert (P : (0 <= product (mkVec3 1%Z 2%Z 1%Z))%Z)
    by (vm_compute; discriminate).
  split; [repeat split; assumption|].
  exact (@cubes_of_a_failed_stream_are_zero numerics 2 (-1)%Z
           (mkVec3 0 0 0) (mkVec3 1%Z 2%Z 1%Z) (mkVec3 1 1 1)
           ""%string (setfail (istream_of "")) empty_molecule G I1 I2 P).
Defined.

Lemma read_without_atom_count_is_undefined_witness :
  (good (header_stream (istream_of "")) = false
   /\ skipws (buf (header_stream (istream_of two_line_file))) = ""%string)
  /\ @read numerics core (istream_of "") empty_molecule = Undefined
  /\ @read numerics core (istream_of two_line_file) water_molecule = Undefined.
Proof.
  assert (A : good (header_stream (istream_of "")) = false) by reflexivity.
  assert (B : skipws (buf (header_stream (istream_of two_line_file)))
              = ""%string) by reflexivity.
  split; [split; assumption|]. split.
  - exact (read_without_atom_count_is_undefined (istream_of "") empty_molecule
             (or_introl A)).
  - exact (read_without_atom_count_is_undefined (istream_of two_line_file)
             water_molecule (or_intror B)).
Defined.

Lemma column_writers_witness :
  ((0 <= 42 <= UINT_MAX)%Z
   /\ exists k, scan_digits (skipws (int_column 42)) 0 0 = (42%Z, k, ""%string))
  /\ int_column 42 = "   42"%string
  /\ int_column (-1) = "4294967295"%string
  /\ @float_column numerics (-1234567 # 1) = "-1234567.000000"%string.
Proof.
  assert (R : (0 <= 42 <= UINT_MAX)%Z) by (vm_compute; split; discriminate).
  split; [split; [exact R|]|].
  - exact (proj2 (proj2 (proj2 (proj1
             (@column_writers numerics ostream_new 42%Z 0)))) R).
  - repeat split; vm_compute; reflexivity.
Defined.

Lemma write_leaves_its_format_witness :
  write ostream_new grid_molecule = Returned true (encode_stream grid_molecule)
  /\ exists cube rest,
       cubes grid_molecule = cube :: rest
       /\ (cube_data cube = [] -> fixed_state (encode_stream grid_molecule))
       /\ (cube_data cube <> [] -> scientific_state (encode_stream grid_molecule)).
Proof.
  assert (W : write ostream_new grid_molecule
              = Returned true (encode_stream grid_molecule))
    by (apply (returned_true (encode grid_molecule)); vm_compute; reflexivity).
  split; [exact W|].
  exact (write_leaves_its_format _ _ _ W).
Defined.

Lemma atom_count_survives_write_and_read_witness :
  let o := encode_stream water_molecule in
  (cubes water_molecule = [unit_cube]
   /\ has_char newline (name water_molecule) = false
   /\ (Z.of_nat (atomCount water_molecule) <= INT_MAX)%Z
   /\ (String.length
         (num_put_double ff_fixed 6
            (Real_mul (v0 (cube_min unit_cube)) ANGSTROM_TO_BOHR)) < 12)%nat
   /\ write ostream_new water_molecule = Returned true o)
  /\ header_nAtoms (istream_of (text o))
     = Some (Z.of_nat (atomCount water_molecule))
  /\ forall m0 ins' m',
       read (istream_of (text o)) m0 = Returned true (ins', m') ->
       atomCount m' = (atomCount m0 + atomCount water_molecule)%nat
       /\ cubeCount m' = (cubeCount m0 + 1)%nat.
Proof.
  cbv zeta.
  assert (E : cubes water_molecule = [unit_cube]) by reflexivity.
  assert (N : has_char newline (name water_molecule) = false) by reflexivity.
  assert (R : (Z.of_nat (atomCount water_molecule) <= INT_MAX)%Z)
    by (vm_compute; discriminate).
  assert (L : (String.length
                 (num_put_double ff_fixed 6
                    (Real_mul (v0 (cube_min unit_cube)) ANGSTROM_TO_BOHR))
               < 12)%nat) by (vm_compute; lia).
  assert (W : write ostream_new water_molecule
              = Returned true (encode_stream water_molecule))
    by (apply (returned_true (encode water_molecule));
        vm_compute; reflexivity).
  split; [repeat split; assumption|].
  exact (atom_count_survives_write_and_read water_molecule unit_cube []
           (encode_stream water_molecule) E N R L W).
Defined.
